(** * terraform-provider-snowflake: the schema and managed-account resources

    A shallow embedding of [pkg/resources/schema.go] and of the managed-account
    resource, with the lifecycle functions written in a state-and-error monad
    over the host framework's resource data, the database handle and a trace of
    the effects the functions perform. *)

From Stdlib Require Import ZArith String Ascii List Lia Bool.
From Stdlib Require Import Numbers.DecimalString.
From stdpp Require Import base gmap strings.
Import ListNotations.

Local Open Scope string_scope.

(** ** Go strings *)

Module strings.

(** [strings.HasPrefix]. *)
Fixpoint HasPrefix (s prefix : string) {struct prefix} : bool :=
  match prefix, s with
  | EmptyString, _ => true
  | String _ _, EmptyString => false
  | String p prefix', String c s' => if Ascii.eqb p c then HasPrefix s' prefix' else false
  end.

(** The scan behind [strings.Split] for a non-empty separator: the first
    occurrence of [sep] from the left ends the current piece, and the bytes
    of the separator are skipped ([skip] counts those still to drop). *)
Fixpoint genSplit (sep : string) (s : string) (skip : nat) : list string :=
  match s with
  | EmptyString => [EmptyString]
  | String c s' =>
      match skip with
      | S k => genSplit sep s' k
      | O =>
          if HasPrefix s sep
          then EmptyString :: genSplit sep s' (Nat.pred (String.length sep))
          else match genSplit sep s' O with
               | piece :: rest => String c piece :: rest
               | [] => [String c EmptyString]
               end
      end
  end.

(** With an empty separator Go explodes the string, one piece per character
    (here: per byte). *)
Fixpoint explode (s : string) : list string :=
  match s with
  | EmptyString => []
  | String c s' => String c EmptyString :: explode s'
  end.

(** [strings.Split(s, sep)]. *)
Definition Split (s sep : string) : list string :=
  match sep with
  | EmptyString => explode s
  | String _ _ => genSplit sep s O
  end.

(** [strings.Join(elems, sep)]. *)
Fixpoint Join (elems : list string) (sep : string) : string :=
  match elems with
  | [] => EmptyString
  | [e] => e
  | e :: rest => e ++ sep ++ Join rest sep
  end.

(** [strings.Count(s, sep)] for a one-byte separator. *)
Fixpoint CountByte (s : string) (c : ascii) : nat :=
  match s with
  | EmptyString => O
  | String x s' => (if Ascii.eqb c x then 1 else 0) + CountByte s' c
  end.

End strings.

(** ** Go errors, [fmt] and [github.com/pkg/errors] *)

(** An [error] value. [ErrNoRows] is the sentinel [sql.ErrNoRows]; a
    [driverError] is any error the SQL driver or a column conversion reports;
    [frameworkError] is an error of the host framework's setter. *)
Inductive error : Type :=
| errorString (msg : string)
| withMessage (cause : error) (msg : string)
| ErrNoRows
| driverError (msg : string)
| frameworkError (msg : string).

Module fmt.

(** The verb [%d] on an integer. *)
Definition d (n : Z) : string := NilZero.string_of_int (Z.to_int n).

(** [fmt.Errorf] once the format has been expanded. *)
Definition Errorf (msg : string) : error := errorString msg.

End fmt.

Module errors.

(** [errors.Wrapf(err, format, args...)] on a non-nil [err], the format
    already expanded. *)
Definition Wrapf (err : error) (msg : string) : error := withMessage err msg.

(** [errors.Cause]. *)
Fixpoint Cause (err : error) : error :=
  match err with
  | withMessage cause _ => Cause cause
  | _ => err
  end.

End errors.

(** ** [database/sql] values *)

Module sql.

Record NullString : Type := { String_ : string; Valid : bool }.
Record NullInt64 : Type := { Int64 : Z; Valid64 : bool }.

End sql.

(** ** The host framework: [helper/schema] *)

Module schema.

Inductive ValueType : Type := TypeBool | TypeInt | TypeString.

(** The values of an attribute bag: an [interface{}] that is nil or holds a
    string, a bool or an int. *)
Inductive Value : Type :=
| VNil
| VString (s : string)
| VBool (b : bool)
| VInt (n : Z).

Definition typeOf (v : Value) : option ValueType :=
  match v with
  | VNil => None
  | VString _ => Some TypeString
  | VBool _ => Some TypeBool
  | VInt _ => Some TypeInt
  end.

(** [ValueType.Zero]. *)
Definition Zero (t : ValueType) : Value :=
  match t with
  | TypeBool => VBool false
  | TypeInt => VInt 0
  | TypeString => VString ""
  end.

(** Whether the value [v] is of type [t]. *)
Definition hasType (v : Value) (t : ValueType) : bool :=
  match typeOf v, t with
  | Some TypeBool, TypeBool | Some TypeInt, TypeInt | Some TypeString, TypeString => true
  | _, _ => false
  end.

(** [reflect.DeepEqual] on attribute values. *)
Definition Value_eqb (a b : Value) : bool :=
  match a, b with
  | VString x, VString y => String.eqb x y
  | VBool x, VBool y => Bool.eqb x y
  | VInt x, VInt y => Z.eqb x y
  | VNil, VNil => true
  | _, _ => false
  end.

(** The validators the two attribute schemas name. *)
Inductive SchemaValidateFunc : Type :=
| IntBetween (min max : Z)
| StringInSlice (valid : list string) (ignoreCase : bool)
| ValidatePassword.

(** [schema.Schema]: one entry of a resource's attribute schema. *)
Record Schema : Type := {
  Type_ : ValueType;
  Required : bool;
  Optional : bool;
  Computed : bool;
  ForceNew : bool;
  Sensitive : bool;
  Default : option Value;
  Description : string;
  ValidateFunc : option SchemaValidateFunc
}.

(** [schema.ResourceData]: the resource ID, the prior state, the planned
    values (state merged with the diff), the values written by [Set], and the
    partial-state mode with its set of keys. *)
Record ResourceData : Type := {
  id : string;
  state : gmap string Value;
  planned : gmap string Value;
  written : gmap string Value;
  partial : bool;
  partialMap : option (gset string)
}.

(** The type assertions of the source, [v.(string)], [v.(bool)] and
    [v.(int)]. The framework hands every attribute out at its schema type
    (see [get]), so they are applied to values of the asserted type only. *)
Definition asString (v : Value) : string :=
  match v with VString s => s | _ => "" end.
Definition asBool (v : Value) : bool :=
  match v with VBool b => b | _ => false end.
Definition asInt (v : Value) : Z :=
  match v with VInt n => n | _ => 0%Z end.

Section ResourceDataOps.
Variable sch : gmap string Schema.

(** A read of key [k] at one level: the value at the schema's type, the zero
    value when nothing is stored, nil for a key the schema does not have. *)
Definition get (level : gmap string Value) (k : string) : Value :=
  match sch !! k with
  | Some s =>
      match level !! k with
      | Some v => if hasType v (Type_ s) then v else Zero (Type_ s)
      | None => Zero (Type_ s)
      end
  | None => VNil
  end.

(** What [Get] sees: the written values over the planned ones. *)
Definition merged (d : ResourceData) : gmap string Value :=
  written d ∪ planned d.

(** [d.Get(k)]. *)
Definition Get (d : ResourceData) (k : string) : Value := get (merged d) k.

(** [d.GetOk(k)]: the value, and whether it is set to a non-zero value. *)
Definition GetOk (d : ResourceData) (k : string) : Value * bool :=
  let v := Get d k in
  let exists_ :=
    match sch !! k, merged d !! k with
    | Some s, Some _ => negb (Value_eqb v (Zero (Type_ s)))
    | _, _ => false
    end in
  (v, exists_).

(** [d.GetChange(k)]: the old value from the state, the new one from the
    plan. *)
Definition GetChange (d : ResourceData) (k : string) : Value * Value :=
  (get (state d) k, get (planned d) k).

(** [d.HasChange(k)]. *)
Definition HasChange (d : ResourceData) (k : string) : bool :=
  let '(o, n) := GetChange d k in negb (Value_eqb o n).

(** [d.Set(k, v)]: fails on a key the schema does not have and on a value
    that is not of the key's type. *)
Definition Set_ (d : ResourceData) (k : string) (v : Value) : error + ResourceData :=
  match sch !! k with
  | Some s =>
      if hasType v (Type_ s)
      then inr {| id := id d; state := state d; planned := planned d;
                  written := <[k := v]> (written d);
                  partial := partial d; partialMap := partialMap d |}
      else inl (frameworkError ("cannot set " ++ k ++ ": wrong type"))
  | None => inl (frameworkError ("invalid address to set: " ++ k))
  end.

End ResourceDataOps.

(** [d.Id()] is the field [id]; [d.SetId(v)]. *)
Definition SetId (d : ResourceData) (v : string) : ResourceData :=
  {| id := v; state := state d; planned := planned d; written := written d;
     partial := partial d; partialMap := partialMap d |}.

(** [d.Partial(on)]: switching the mode on keeps (or creates) the set of
    partial keys, switching it off drops the set. *)
Definition Partial (d : ResourceData) (on : bool) : ResourceData :=
  {| id := id d; state := state d; planned := planned d; written := written d;
     partial := on;
     partialMap := if on
                   then Some (match partialMap d with Some m => m | None => ∅ end)
                   else None |}.

(** [d.SetPartial(k)]: records [k] when the partial mode is on. *)
Definition SetPartial (d : ResourceData) (k : string) : ResourceData :=
  if partial d
  then {| id := id d; state := state d; planned := planned d; written := written d;
          partial := partial d;
          partialMap := Some ({[ k ]} ∪ match partialMap d with Some m => m | None => ∅ end) |}
  else d.

End schema.

Module validation.
Import schema.

(** [validation.IntBetween(min, max)] applied to the value [i] of key [k]:
    the list of errors, empty when the value is accepted. *)
Definition IntBetween (min max : Z) (i : Value) (k : string) : list error :=
  match i with
  | VInt v =>
      if ((v <? min) || (max <? v))%Z
      then [fmt.Errorf ("expected " ++ k ++ " to be in the range (" ++ fmt.d min
                        ++ " - " ++ fmt.d max ++ "), got " ++ fmt.d v)]
      else []
  | _ => [fmt.Errorf ("expected type of " ++ k ++ " to be int")]
  end.

End validation.

(** ** The database handle and the effects of a lifecycle call *)

(** What the lifecycle functions do to the outside world, in the order in
    which they do it. [EvSleep] carries a [time.Duration] in nanoseconds. *)
Inductive Event : Type :=
| EvExec (q : string)
| EvQueryRow (q : string)
| EvQuery (q : string)
| EvRowsClose
| EvLog (msg : string)
| EvSleep (d : Z)
| EvPartial (on : bool)
| EvSetPartial (k : string).

(** The handle [*sql.DB] behind [meta]: a database of type [DB] answers the
    statements it is sent and moves to a new state. [Row] is a result row as
    the driver delivers it.
    - [db_Exec] is the helper [DBExec]: the error of [db.Exec], if any;
    - [db_QueryRow] is [db.QueryRow]: the error of the query, or its first
      row, if it has one;
    - [db_Query] is [db.Query]: the error of the query, or its rows. *)
Class SqlDB (DB Row : Type) : Type := {
  db_Exec : DB -> string -> option error * DB;
  db_QueryRow : DB -> string -> (error + option Row) * DB;
  db_Query : DB -> string -> (error + list Row) * DB
}.

(** The column conversions of [Row.Scan] into the destinations of a read:
    the scanned values, or the conversion error. *)
Class Scanner (Row A : Type) : Type := {
  scanRow : Row -> error + A
}.

(** [row.Scan(dest...)] on the result of [db.QueryRow]: the deferred query
    error, [sql.ErrNoRows] when there is no row, or the outcome of the
    conversions. *)
Definition Scan {Row A : Type} `{Scanner Row A} (row : error + option Row) : error + A :=
  match row with
  | inl err => inl err
  | inr None => inl ErrNoRows
  | inr (Some r) => scanRow r
  end.

(** The state a lifecycle call works on: the resource data it was handed,
    the database, and the trace of its effects so far. *)
Record World (DB : Type) : Type := {
  w_data : schema.ResourceData;
  w_db : DB;
  w_trace : list Event
}.
Arguments w_data {DB} _.
Arguments w_db {DB} _.
Arguments w_trace {DB} _.

(** The result of a Go function that returns an error last: [Ok a] stands
    for [(a, nil)] and [Err e] for a non-nil error [e]. *)
Inductive result (A : Type) : Type :=
| Ok (a : A)
| Err (e : error).
Arguments Ok {A} a.
Arguments Err {A} e.

(** Computations over the world that may return an error. The world is kept
    on an error: what was executed and written before it stays. *)
Definition M (DB A : Type) : Type := World DB -> result A * World DB.

Definition ret {DB A : Type} (a : A) : M DB A := fun w => (Ok a, w).

Definition raise {DB A : Type} (e : error) : M DB A := fun w => (Err e, w).

Definition bind {DB A B : Type} (c : M DB A) (k : A -> M DB B) : M DB B :=
  fun w =>
    match c w with
    | (Ok a, w') => k a w'
    | (Err e, w') => (Err e, w')
    end.

Declare Scope go_scope.
Delimit Scope go_scope with go.
Notation "x <- c ;; k" := (bind c (fun x => k))
  (at level 100, c at next level, k at level 200, right associativity) : go_scope.
Notation "c ;; k" := (bind c (fun _ => k))
  (at level 100, k at level 200, right associativity) : go_scope.

Local Open Scope go_scope.

Section Primitives.
Context {DB : Type}.

Definition emit (ev : Event) : M DB unit :=
  fun w => (Ok tt, {| w_data := w_data w; w_db := w_db w; w_trace := w_trace w ++ [ev] |}).

Definition getData : M DB schema.ResourceData :=
  fun w => (Ok (w_data w), w).

Definition putData (d : schema.ResourceData) : M DB unit :=
  fun w => (Ok tt, {| w_data := d; w_db := w_db w; w_trace := w_trace w |}).

(** [return err] for an [err] that is an [error + A]: nil continues. *)
Definition check {A : Type} (r : error + A) : M DB A :=
  match r with
  | inl err => raise err
  | inr a => ret a
  end.

End Primitives.

(** The helper [DBExec(db, q)]. *)
Definition DBExec {DB Row : Type} `{SqlDB DB Row} (q : string) : M DB (option error) :=
  fun w =>
    let '(err, db') := db_Exec (w_db w) q in
    (Ok err, {| w_data := w_data w; w_db := db'; w_trace := w_trace w ++ [EvExec q] |}).

(** The calls on the handle [db]. *)
Module db.
Section Calls.
Context {DB Row : Type} `{SqlDB DB Row}.

Definition QueryRow (q : string) : M DB (error + option Row) :=
  fun w =>
    let '(row, db') := db_QueryRow (w_db w) q in
    (Ok row, {| w_data := w_data w; w_db := db'; w_trace := w_trace w ++ [EvQueryRow q] |}).

(** [db.Query(q)]: the rows, or the error (returned with [false] by the
    callers). *)
Definition Query (q : string) : M DB (list Row) :=
  fun w =>
    let '(rows, db') := db_Query (w_db w) q in
    let w' := {| w_data := w_data w; w_db := db'; w_trace := w_trace w ++ [EvQuery q] |} in
    match rows with
    | inl err => (Err err, w')
    | inr rs => (Ok rs, w')
    end.

End Calls.
End db.

(** [rows.Next()] on fresh rows: whether there is a first row. *)
Definition Next {Row : Type} (rows : list Row) : bool :=
  match rows with
  | [] => false
  | _ :: _ => true
  end.

(** The calls on [data]. The data of a resource kind is read and written
    under that kind's attribute schema [sch], the one its [schema.Resource]
    is registered with. *)
Module data.
Section Calls.
Context {DB : Type}.
Variable sch : gmap string schema.Schema.

Definition Id : M DB string :=
  d <- getData ;; ret (schema.id d).

Definition SetId (v : string) : M DB unit :=
  d <- getData ;; putData (schema.SetId d v).

Definition Get (k : string) : M DB schema.Value :=
  d <- getData ;; ret (schema.Get sch d k).

Definition GetOk (k : string) : M DB (schema.Value * bool) :=
  d <- getData ;; ret (schema.GetOk sch d k).

Definition HasChange (k : string) : M DB bool :=
  d <- getData ;; ret (schema.HasChange sch d k).

Definition GetChange (k : string) : M DB (schema.Value * schema.Value) :=
  d <- getData ;; ret (schema.GetChange sch d k).

Definition Set_ (k : string) (v : schema.Value) : M DB unit :=
  d <- getData ;;
  d' <- check (schema.Set_ sch d k v) ;;
  putData d'.

Definition Partial (on : bool) : M DB unit :=
  d <- getData ;;
  putData (schema.Partial d on) ;;
  emit (EvPartial on).

Definition SetPartial (k : string) : M DB unit :=
  d <- getData ;;
  putData (schema.SetPartial d k) ;;
  emit (EvSetPartial k).

End Calls.
End data.

Module time.

Definition Nanosecond : Z := 1.
Definition Microsecond : Z := 1000 * Nanosecond.
Definition Millisecond : Z := 1000 * Microsecond.
Definition Second : Z := 1000 * Millisecond.

(** [time.Sleep(d)]. *)
Definition Sleep {DB : Type} (d : Z) : M DB unit := emit (EvSleep d).

End time.

Module log.

(** [log.Printf] once the format has been expanded. *)
Definition Printf {DB : Type} (msg : string) : M DB unit := emit (EvLog msg).

End log.

(** ** The statement builders of [pkg/snowflake] *)

Module snowflake.

(** The builder of schema statements, [*snowflake.SchemaBuilder]: the
    constructor [Schema], the fluent setters, and the statements it renders.
    The package is taken as this interface. *)
Class SchemaBuilder (B : Type) : Type := {
  Schema : string -> B;
  WithDB : B -> string -> B;
  WithComment : B -> string -> B;
  Transient : B -> B;
  Managed : B -> B;
  WithDataRetentionDays : B -> Z -> B;
  Create : B -> string;
  Show : B -> string;
  Drop : B -> string;
  ChangeComment : B -> string -> string;
  Manage : B -> string;
  Unmanage : B -> string;
  ChangeDataRetentionDays : B -> Z -> string
}.

(** The generic builder, [*snowflake.Builder], as the managed-account
    resource uses it: the constructor [ManagedAccount] and the statements
    [Show], [Drop] and the CREATE statement for the properties that are
    set. *)
Class Builder (G : Type) : Type := {
  ManagedAccount : string -> G;
  ShowStmt : G -> string;
  DropStmt : G -> string;
  CreateStmt : G -> list (string * schema.Value) -> string
}.

End snowflake.

(** ** [pkg/resources]: the schema resource *)

Import schema.

Definition schemaSchema : gmap string Schema :=
  list_to_map [
    ("name",
     {| Type_ := TypeString; Required := true; Optional := false; Computed := false;
        ForceNew := true; Sensitive := false; Default := None;
        Description := "Specifies the identifier for the schema; must be unique for the database in which the schema is created.";
        ValidateFunc := None |});
    ("database",
     {| Type_ := TypeString; Required := true; Optional := false; Computed := false;
        ForceNew := true; Sensitive := false; Default := None;
        Description := "The database in which to create the schema.";
        ValidateFunc := None |});
    ("comment",
     {| Type_ := TypeString; Required := false; Optional := true; Computed := false;
        ForceNew := false; Sensitive := false; Default := None;
        Description := "Specifies a comment for the schema.";
        ValidateFunc := None |});
    ("is_transient",
     {| Type_ := TypeBool; Required := false; Optional := true; Computed := false;
        ForceNew := true; Sensitive := false; Default := Some (VBool false);
        Description := "Specifies a schema as transient. Transient schemas do not have a Fail-safe period so they do not incur additional storage costs once they leave Time Travel; however, this means they are also not protected by Fail-safe in the event of a data loss.";
        ValidateFunc := None |});
    ("is_managed",
     {| Type_ := TypeBool; Required := false; Optional := true; Computed := false;
        ForceNew := false; Sensitive := false; Default := Some (VBool false);
        Description := "Specifies a managed schema. Managed access schemas centralize privilege management with the schema owner.";
        ValidateFunc := None |});
    ("data_retention_days",
     {| Type_ := TypeInt; Required := false; Optional := true; Computed := false;
        ForceNew := false; Sensitive := false; Default := Some (VInt 1);
        Description := "Specifies the number of days for which Time Travel actions (CLONE and UNDROP) can be performed on the schema, as well as specifying the default Time Travel retention time for all tables created in the schema.";
        ValidateFunc := Some (IntBetween 0 90) |})
  ].


(** splitSchemaID takes the <database_name>|<schema_name> ID and returns the
    database name and schema name. *)
Definition splitSchemaID (v : string) : error + (string * string) :=
  let arr := strings.Split v "|" in
  match arr with
  | [a0; a1] => inr (a0, a1)
  | _ => inl (fmt.Errorf ("ID " ++ v ++ " is invalid"))
  end.

(** The destinations of the scan in [ReadSchema], in column order. *)
Record SchemaRow : Type := {
  createdOn : sql.NullString;
  name : sql.NullString;
  isDefault : sql.NullString;
  isCurrent : sql.NullString;
  databaseName : sql.NullString;
  owner : sql.NullString;
  comment : sql.NullString;
  options : sql.NullString;
  retentionTime : sql.NullInt64
}.

(** [for _, x := range xs { body }] with a body that may return an error. *)
Fixpoint forRange {DB A : Type} (xs : list A) (body : A -> M DB unit) : M DB unit :=
  match xs with
  | [] => ret tt
  | x :: rest => body x ;; forRange rest body
  end.

Section SchemaResource.
Context {DB Row B : Type} `{SqlDB DB Row} `{Scanner Row SchemaRow}
        `{snowflake.SchemaBuilder B}.
Import snowflake.

(** The builder [CreateSchema] has assembled when it renders the CREATE
    statement: name and database, then each optional attribute that
    [GetOk] reports as set. *)
Definition createSchemaBuilder (d : ResourceData) : B :=
  let name := asString (schema.Get schemaSchema d "name") in
  let database := asString (schema.Get schemaSchema d "database") in
  let builder := WithDB (Schema name) database in
  let builder :=
    let '(v, ok) := schema.GetOk schemaSchema d "comment" in
    if ok then WithComment builder (asString v) else builder in
  let builder :=
    let '(v, ok) := schema.GetOk schemaSchema d "is_transient" in
    if ok && asBool v then Transient builder else builder in
  let builder :=
    let '(v, ok) := schema.GetOk schemaSchema d "is_managed" in
    if ok && asBool v then Managed builder else builder in
  let builder :=
    let '(v, ok) := schema.GetOk schemaSchema d "data_retention_days" in
    if ok then WithDataRetentionDays builder (asInt v) else builder in
  builder.

(** ReadSchema implements schema.ReadFunc *)
Definition ReadSchema : M DB unit :=
  id <- data.Id ;;
  ids <- check (splitSchemaID id) ;;
  let '(dbName, schema_) := ids in
  let q := Show (WithDB (Schema schema_) dbName) in
  row <- db.QueryRow q ;;
  r <- check (Scan row) ;;
  data.Set_ schemaSchema "name" (VString (sql.String_ (name r))) ;;
  data.Set_ schemaSchema "database" (VString (sql.String_ (databaseName r))) ;;
  data.Set_ schemaSchema "comment" (VString (sql.String_ (comment r))) ;;
  data.Set_ schemaSchema "data_retention_days" (VInt (sql.Int64 (retentionTime r))) ;;
  (* reset the options before reading back from the DB *)
  data.Set_ schemaSchema "is_transient" (VBool false) ;;
  data.Set_ schemaSchema "is_managed" (VBool false) ;;
  let opts := sql.String_ (options r) in
  if negb (String.eqb opts "")
  then
    forRange (strings.Split opts ", ") (fun opt =>
      if String.eqb opt "TRANSIENT" then data.Set_ schemaSchema "is_transient" (VBool true)
      else if String.eqb opt "MANAGED" then data.Set_ schemaSchema "is_managed" (VBool true)
      else ret tt)
  else ret tt.

(** CreateSchema implements schema.CreateFunc *)
Definition CreateSchema : M DB unit :=
  name <- data.Get schemaSchema "name" ;;
  let name := asString name in
  database <- data.Get schemaSchema "database" ;;
  let database := asString database in
  d <- getData ;;
  let builder := createSchemaBuilder d in
  let q := Create builder in
  err <- DBExec q ;;
  match err with
  | Some err => raise (errors.Wrapf err ("error creating schema " ++ name))
  | None =>
      (* ID format is <database>|<schema> - please don't use a pipe in your names! *)
      data.SetId (database ++ "|" ++ name) ;;
      ReadSchema
  end.

(** UpdateSchema implements schema.UpdateFunc *)
Definition UpdateSchema : M DB unit :=
  data.Partial true ;;
  id <- data.Id ;;
  ids <- check (splitSchemaID id) ;;
  let '(dbName, schema_) := ids in
  let builder := WithDB (Schema schema_) dbName in
  changed <- data.HasChange schemaSchema "comment" ;;
  (if changed : bool then
     c <- data.GetChange schemaSchema "comment" ;;
     let q := ChangeComment builder (asString (snd c)) in
     err <- DBExec q ;;
     match err with
     | Some err =>
         id <- data.Id ;;
         raise (errors.Wrapf err ("error updating schema comment on " ++ id))
     | None => data.SetPartial "comment"
     end
   else ret tt) ;;
  changed <- data.HasChange schemaSchema "is_managed" ;;
  (if changed : bool then
     c <- data.GetChange schemaSchema "is_managed" ;;
     let q := if asBool (snd c) then Manage builder else Unmanage builder in
     err <- DBExec q ;;
     match err with
     | Some err =>
         id <- data.Id ;;
         raise (errors.Wrapf err ("error changing management state on " ++ id))
     | None => data.SetPartial "is_managed"
     end
   else ret tt) ;;
  data.Partial false ;;
  changed <- data.HasChange schemaSchema "data_retention_days" ;;
  (if changed : bool then
     c <- data.GetChange schemaSchema "data_retention_days" ;;
     let q := ChangeDataRetentionDays builder (asInt (snd c)) in
     err <- DBExec q ;;
     match err with
     | Some err =>
         id <- data.Id ;;
         raise (errors.Wrapf err ("error updating data retention days on " ++ id))
     | None => ret tt
     end
   else ret tt) ;;
  ReadSchema.

(** DeleteSchema implements schema.DeleteFunc *)
Definition DeleteSchema : M DB unit :=
  id <- data.Id ;;
  ids <- check (splitSchemaID id) ;;
  let '(dbName, schema_) := ids in
  let q := Drop (WithDB (Schema schema_) dbName) in
  err <- DBExec q ;;
  match err with
  | Some err =>
      id <- data.Id ;;
      raise (errors.Wrapf err ("error deleting schema " ++ id))
  | None => data.SetId ""
  end.

(** SchemaExists implements schema.ExistsFunc *)
Definition SchemaExists : M DB bool :=
  id <- data.Id ;;
  ids <- check (splitSchemaID id) ;;
  let '(dbName, schema_) := ids in
  let q := Show (WithDB (Schema schema_) dbName) in
  rows <- db.Query q ;;
  let found := Next rows in
  emit EvRowsClose ;;
  ret found.

End SchemaResource.

(** ** [pkg/resources]: the managed-account resource *)

Definition SnowflakeReaderAccountType : string := "READER".

Definition managedAccountProperties : list string :=
  ["admin_name"; "admin_password"; "type"; "comment"].

Definition managedAccountSchema : gmap string Schema :=
  list_to_map [
    ("name",
     {| Type_ := TypeString; Required := true; Optional := false; Computed := false;
        ForceNew := true; Sensitive := false; Default := None;
        Description := "Identifier for the managed account; must be unique for your account.";
        ValidateFunc := None |});
    ("admin_name",
     {| Type_ := TypeString; Required := true; Optional := false; Computed := false;
        ForceNew := true; Sensitive := false; Default := None;
        Description := "Identifier, as well as login name, for the initial user in the managed account. This user serves as the account administrator for the account.";
        ValidateFunc := None |});
    ("admin_password",
     {| Type_ := TypeString; Required := true; Optional := false; Computed := false;
        ForceNew := true; Sensitive := true; Default := None;
        Description := "Password for the initial user in the managed account.";
        ValidateFunc := Some ValidatePassword |});
    ("type",
     {| Type_ := TypeString; Required := false; Optional := true; Computed := false;
        ForceNew := true; Sensitive := false;
        Default := Some (VString SnowflakeReaderAccountType);
        Description := "Specifies the type of managed account.";
        ValidateFunc := Some (StringInSlice [SnowflakeReaderAccountType] true) |});
    ("comment",
     {| Type_ := TypeString; Required := false; Optional := true; Computed := false;
        ForceNew := true; Sensitive := false; Default := None;
        Description := "Specifies a comment for the managed account.";
        ValidateFunc := None |});
    ("cloud",
     {| Type_ := TypeString; Required := false; Optional := false; Computed := true;
        ForceNew := false; Sensitive := false; Default := None;
        Description := "Cloud in which the managed account is located.";
        ValidateFunc := None |});
    ("region",
     {| Type_ := TypeString; Required := false; Optional := false; Computed := true;
        ForceNew := false; Sensitive := false; Default := None;
        Description := "Snowflake Region in which the managed account is located.";
        ValidateFunc := None |});
    ("locator",
     {| Type_ := TypeString; Required := false; Optional := false; Computed := true;
        ForceNew := false; Sensitive := false; Default := None;
        Description := "Display name of the managed account.";
        ValidateFunc := None |});
    ("created_on",
     {| Type_ := TypeString; Required := false; Optional := false; Computed := true;
        ForceNew := false; Sensitive := false; Default := None;
        Description := "Date and time when the managed account was created.";
        ValidateFunc := None |});
    ("url",
     {| Type_ := TypeString; Required := false; Optional := false; Computed := true;
        ForceNew := false; Sensitive := false; Default := None;
        Description := "URL for accessing the managed account, particularly through the web interface.";
        ValidateFunc := None |})
  ].

(** The destinations of the scan in [ReadManagedAccount], in column order. *)
Record ManagedAccountRow : Type := {
  ma_name : sql.NullString;
  ma_cloud : sql.NullString;
  ma_region : sql.NullString;
  ma_locator : sql.NullString;
  ma_createdOn : sql.NullString;
  ma_url : sql.NullString;
  ma_isReader : bool;
  ma_comment : sql.NullString
}.

(** Modelled from the spec: the properties [CreateResource] hands to the
    builder, those of [properties] that [GetOk] reports as set. *)
Definition setProperties (s : gmap string Schema) (d : ResourceData)
    (properties : list string) : list (string * Value) :=
  flat_map (fun field =>
              let '(val, ok) := schema.GetOk s d field in
              if ok then [(field, val)] else []) properties.

Section ManagedAccountResource.
Context {DB Row G : Type} `{SqlDB DB Row} `{Scanner Row ManagedAccountRow}
        `{snowflake.Builder G}.
Import snowflake.

(** ReadManagedAccount implements schema.ReadFunc *)
Definition ReadManagedAccount : M DB unit :=
  id <- data.Id ;;
  let stmt := ShowStmt (ManagedAccount id) in
  row <- db.QueryRow stmt ;;
  r <- check (Scan row) ;;
  data.Set_ managedAccountSchema "name" (VString (sql.String_ (ma_name r))) ;;
  data.Set_ managedAccountSchema "cloud" (VString (sql.String_ (ma_cloud r))) ;;
  data.Set_ managedAccountSchema "region" (VString (sql.String_ (ma_region r))) ;;
  data.Set_ managedAccountSchema "locator" (VString (sql.String_ (ma_locator r))) ;;
  data.Set_ managedAccountSchema "created_on" (VString (sql.String_ (ma_createdOn r))) ;;
  data.Set_ managedAccountSchema "url" (VString (sql.String_ (ma_url r))) ;;
  (if ma_isReader r
   then data.Set_ managedAccountSchema "type" (VString "READER")
   else raise (fmt.Errorf "Unable to determine the account type")) ;;
  data.Set_ managedAccountSchema "comment" (VString (sql.String_ (ma_comment r))).

(** initialReadManagedAccount is used for the first read, since the locator
    takes some time to appear. This is currently implemented as a sleep. *)
Definition initialReadManagedAccount : M DB unit :=
  log.Printf "[INFO] sleeping to give the locator a chance to be generated" ;;
  time.Sleep (10 * time.Second) ;;
  ReadManagedAccount.

(** Modelled from the spec: the helper [CreateResource] of this package, whose
    source is not part of this development. Per the spec's Create contract it reads
    the name and the properties that are set from the bag, builds the CREATE
    statement, executes it, returns an execution error wrapped with the
    resource kind as context, stores the ID and then invokes the read function
    it was given. *)
Definition CreateResource (t : string) (properties : list string)
    (s : gmap string schema.Schema) (builder : string -> G) (read : M DB unit) : M DB unit :=
  name <- data.Get s "name" ;;
  let name := asString name in
  d <- getData ;;
  let q := CreateStmt (builder name) (setProperties s d properties) in
  err <- DBExec q ;;
  match err with
  | Some err => raise (errors.Wrapf err ("error creating " ++ t))
  | None => data.SetId name ;; read
  end.

(** CreateManagedAccount implements schema.CreateFunc *)
Definition CreateManagedAccount : M DB unit :=
  CreateResource "this does not seem to be used" managedAccountProperties
    managedAccountSchema ManagedAccount initialReadManagedAccount.

(** ManagedAccountExists implements schema.ExistsFunc *)
Definition ManagedAccountExists : M DB bool :=
  id <- data.Id ;;
  let stmt := ShowStmt (ManagedAccount id) in
  rows <- db.Query stmt ;;
  let found := Next rows in
  emit EvRowsClose ;;
  ret found.

End ManagedAccountResource.

(** ** Test doubles

    A scripted database in the manner of [go-sqlmock], and builders that
    render readable statements; the concrete runs below use them. *)

Module sqlmock.

(** A row of either resource kind. *)
Inductive MockRow : Type :=
| SchemaRowOf (r : SchemaRow)
| ManagedAccountRowOf (r : ManagedAccountRow).

(** One expectation: the reply to the next call of its kind. *)
Inductive Expectation : Type :=
| ExpectExec (reply : option error)
| ExpectQueryRow (reply : error + option MockRow)
| ExpectQuery (reply : error + list MockRow).

(** The database is the list of expectations still to be met. *)
Definition Sqlmock : Type := list Expectation.

Definition unexpected (q : string) : error :=
  driverError ("call to " ++ q ++ " was not expected").

#[export] Instance Sqlmock_db : SqlDB Sqlmock MockRow := {|
  db_Exec m q :=
    match m with
    | ExpectExec reply :: rest => (reply, rest)
    | _ => (Some (unexpected q), m)
    end;
  db_QueryRow m q :=
    match m with
    | ExpectQueryRow reply :: rest => (reply, rest)
    | _ => (inl (unexpected q), m)
    end;
  db_Query m q :=
    match m with
    | ExpectQuery reply :: rest => (reply, rest)
    | _ => (inl (unexpected q), m)
    end
|}.

#[export] Instance scan_schema : Scanner MockRow SchemaRow := {|
  scanRow r :=
    match r with
    | SchemaRowOf x => inr x
    | ManagedAccountRowOf _ =>
        inl (driverError "sql: expected 8 destination arguments in Scan, not 9")
    end
|}.

#[export] Instance scan_account : Scanner MockRow ManagedAccountRow := {|
  scanRow r :=
    match r with
    | ManagedAccountRowOf x => inr x
    | SchemaRowOf _ =>
        inl (driverError "sql: expected 9 destination arguments in Scan, not 8")
    end
|}.

(** Modelled from the spec: the schema builder of [pkg/snowflake], whose
    source is not part of this development, as a test double. It accumulates the
    optional clauses (comment, retention, transient and managed flags) and
    renders the CREATE, ALTER, SHOW and DROP statements; the statement texts
    are those of the double. *)
Record SchemaStmt : Type := {
  sb_name : string;
  sb_db : string;
  sb_comment : option string;
  sb_transient : bool;
  sb_managed : bool;
  sb_days : option Z
}.

Definition qualified (b : SchemaStmt) : string := sb_db b ++ "." ++ sb_name b.

#[export] Instance schema_builder : snowflake.SchemaBuilder SchemaStmt := {|
  snowflake.Schema n :=
    {| sb_name := n; sb_db := ""; sb_comment := None; sb_transient := false;
       sb_managed := false; sb_days := None |};
  snowflake.WithDB b database :=
    {| sb_name := sb_name b; sb_db := database; sb_comment := sb_comment b;
       sb_transient := sb_transient b; sb_managed := sb_managed b; sb_days := sb_days b |};
  snowflake.WithComment b c :=
    {| sb_name := sb_name b; sb_db := sb_db b; sb_comment := Some c;
       sb_transient := sb_transient b; sb_managed := sb_managed b; sb_days := sb_days b |};
  snowflake.Transient b :=
    {| sb_name := sb_name b; sb_db := sb_db b; sb_comment := sb_comment b;
       sb_transient := true; sb_managed := sb_managed b; sb_days := sb_days b |};
  snowflake.Managed b :=
    {| sb_name := sb_name b; sb_db := sb_db b; sb_comment := sb_comment b;
       sb_transient := sb_transient b; sb_managed := true; sb_days := sb_days b |};
  snowflake.WithDataRetentionDays b n :=
    {| sb_name := sb_name b; sb_db := sb_db b; sb_comment := sb_comment b;
       sb_transient := sb_transient b; sb_managed := sb_managed b; sb_days := Some n |};
  snowflake.Create b :=
    "CREATE" ++ (if sb_transient b then " TRANSIENT" else "") ++ " SCHEMA " ++ qualified b
    ++ (if sb_managed b then " WITH MANAGED ACCESS" else "")
    ++ match sb_days b with
       | Some n => " DATA_RETENTION_TIME_IN_DAYS = " ++ fmt.d n
       | None => ""
       end
    ++ match sb_comment b with
       | Some c => " COMMENT = '" ++ c ++ "'"
       | None => ""
       end;
  snowflake.Show b := "SHOW SCHEMAS LIKE '" ++ sb_name b ++ "' IN DATABASE " ++ sb_db b;
  snowflake.Drop b := "DROP SCHEMA " ++ qualified b;
  snowflake.ChangeComment b c := "ALTER SCHEMA " ++ qualified b ++ " SET COMMENT = '" ++ c ++ "'";
  snowflake.Manage b := "ALTER SCHEMA " ++ qualified b ++ " ENABLE MANAGED ACCESS";
  snowflake.Unmanage b := "ALTER SCHEMA " ++ qualified b ++ " DISABLE MANAGED ACCESS";
  snowflake.ChangeDataRetentionDays b n :=
    "ALTER SCHEMA " ++ qualified b ++ " SET DATA_RETENTION_TIME_IN_DAYS = " ++ fmt.d n
|}.

(** Modelled from the spec: the generic builder of [pkg/snowflake] for a
    managed account, as a test double that keeps the name of the object. *)
#[export] Instance account_builder : snowflake.Builder string := {|
  snowflake.ManagedAccount n := n;
  snowflake.ShowStmt n := "SHOW MANAGED ACCOUNTS LIKE '" ++ n ++ "'";
  snowflake.DropStmt n := "DROP MANAGED ACCOUNT " ++ n;
  snowflake.CreateStmt n fields :=
    "CREATE MANAGED ACCOUNT " ++ n
    ++ strings.Join (map (fun f => " " ++ fst f ++ "='" ++ asString (snd f) ++ "'") fields) ""
|}.

(** Resource data with the given ID, prior state and planned values, nothing
    written yet, partial mode off. *)
Definition resourceData (i : string) (st pl : list (string * Value)) : ResourceData :=
  {| id := i; state := list_to_map st; planned := list_to_map pl; written := ∅;
     partial := false; partialMap := None |}.

Definition world (d : ResourceData) (m : Sqlmock) : World Sqlmock :=
  {| w_data := d; w_db := m; w_trace := [] |}.

Definition nullString (s : string) : sql.NullString := {| sql.String_ := s; sql.Valid := true |}.

Definition null : sql.NullString := {| sql.String_ := ""; sql.Valid := false |}.

(** A row of SHOW SCHEMAS for schema [n] of database [database]. *)
Definition schemaRow (database n c opts : string) (days : Z) : MockRow :=
  SchemaRowOf
    {| createdOn := nullString "2019-05-19 16:55:36.530 -0700"; name := nullString n;
       isDefault := nullString "N"; isCurrent := nullString "Y";
       databaseName := nullString database; owner := nullString "admin";
       comment := nullString c; options := nullString opts;
       retentionTime := {| sql.Int64 := days; sql.Valid64 := true |} |}.

(** *** Sample runs *)

(** Schema [S] of database [D], as a resource that exists already. *)
Definition existing : ResourceData := resourceData "D|S" [] [].

(** An update that changes comment, managed access and retention, every
    statement succeeding. *)
Definition updateAll : World Sqlmock :=
  world
    (resourceData "D|S"
       [("comment", VString "old"); ("is_managed", VBool false);
        ("data_retention_days", VInt 1)]
       [("comment", VString "new"); ("is_managed", VBool true);
        ("data_retention_days", VInt 5)])
    [ExpectExec None; ExpectExec None; ExpectExec None;
     ExpectQueryRow (inr (Some (schemaRow "D" "S" "new" "MANAGED" 5)))].

(** An update that changes the retention only, accepted by the server. *)
Definition updateRetention : World Sqlmock :=
  world
    (resourceData "D|S" [("data_retention_days", VInt 1)] [("data_retention_days", VInt 5)])
    [ExpectExec None; ExpectQueryRow (inr (Some (schemaRow "D" "S" "" "" 5)))].

(** The same update, refused by the server. *)
Definition updateRetentionRefused : World Sqlmock :=
  world
    (resourceData "D|S" [("data_retention_days", VInt 1)] [("data_retention_days", VInt 5)])
    [ExpectExec (Some (driverError "invalid value"))].

(** Two reads in a row: the server reports the option MANAGED, then no
    option. *)
Definition readTwice : World Sqlmock :=
  world existing
    [ExpectQueryRow (inr (Some (schemaRow "D" "S" "" "MANAGED" 1)));
     ExpectQueryRow (inr (Some (schemaRow "D" "S" "" "" 1)))].

(** Creation of the transient schema [S] in [D] with a retention of 5 days. *)
Definition createTransient : World Sqlmock :=
  world
    (resourceData "" []
       [("name", VString "S"); ("database", VString "D"); ("is_transient", VBool true);
        ("data_retention_days", VInt 5)])
    [ExpectExec None; ExpectQueryRow (inr (Some (schemaRow "D" "S" "" "TRANSIENT" 5)))].

(** Creation of [S] in [D] with an explicit retention of 0 days. *)
Definition createRetentionZero : ResourceData :=
  resourceData "" []
    [("name", VString "S"); ("database", VString "D"); ("data_retention_days", VInt 0)].

(** Creation of the managed account [acct]. *)
Definition createAccount : World Sqlmock :=
  world
    (resourceData "" []
       [("name", VString "acct"); ("admin_name", VString "admin");
        ("admin_password", VString "secret"); ("type", VString "READER")])
    [ExpectExec None;
     ExpectQueryRow
       (inr (Some (ManagedAccountRowOf
          {| ma_name := nullString "acct"; ma_cloud := nullString "aws";
             ma_region := nullString "us-west-2"; ma_locator := nullString "XY12345";
             ma_createdOn := nullString "2019-05-19 16:55:36.530 -0700";
             ma_url := nullString "https://xy12345.snowflakecomputing.com";
             ma_isReader := true; ma_comment := null |})))].

(** *** More sample runs *)

(** A database that accepts every statement and has no rows. *)
Inductive AcceptAll : Type := acceptAll.

#[export] Instance AcceptAll_db : SqlDB AcceptAll MockRow := {|
  db_Exec m q := (None, m);
  db_QueryRow m q := (inr None, m);
  db_Query m q := (inr [], m)
|}.

(** The values scanned from [schemaRow "D" "S" "" "MANAGED" 1]. *)
Definition managedRow : SchemaRow :=
  {| createdOn := nullString "2019-05-19 16:55:36.530 -0700"; name := nullString "S";
     isDefault := nullString "N"; isCurrent := nullString "Y";
     databaseName := nullString "D"; owner := nullString "admin";
     comment := nullString ""; options := nullString "MANAGED";
     retentionTime := {| sql.Int64 := 1; sql.Valid64 := true |} |}.

(** Two reads in a row that see the same row. *)
Definition readSame : World Sqlmock :=
  world existing
    [ExpectQueryRow (inr (Some (SchemaRowOf managedRow)));
     ExpectQueryRow (inr (Some (SchemaRowOf managedRow)))].

(** A managed account that the server does not report as a reader. *)
Definition notReaderRow : ManagedAccountRow :=
  {| ma_name := nullString "acct"; ma_cloud := nullString "aws";
     ma_region := nullString "us-west-2"; ma_locator := nullString "XY12345";
     ma_createdOn := nullString "2019-05-19 16:55:36.530 -0700";
     ma_url := nullString "https://xy12345.snowflakecomputing.com";
     ma_isReader := false; ma_comment := nullString "a comment" |}.

Definition readNotReader : World Sqlmock :=
  world (resourceData "acct" [] [("type", VString "READER")])
    [ExpectQueryRow (inr (Some (ManagedAccountRowOf notReaderRow)))].

(** An update of comment and managed access whose first statement is
    refused. *)
Definition updateCommentRefused : World Sqlmock :=
  world
    (resourceData "D|S"
       [("comment", VString "old"); ("is_managed", VBool false)]
       [("comment", VString "new"); ("is_managed", VBool true)])
    [ExpectExec (Some (driverError "insufficient privileges"))].

(** The same update with the second statement refused. *)
Definition updateManagedRefused : World Sqlmock :=
  world
    (resourceData "D|S"
       [("comment", VString "old"); ("is_managed", VBool false)]
       [("comment", VString "new"); ("is_managed", VBool true)])
    [ExpectExec None; ExpectExec (Some (driverError "insufficient privileges"))].

(** The update [updateAll] against the database that accepts everything. *)
Definition updateAccepted : World AcceptAll :=
  {| w_data := w_data updateAll; w_db := acceptAll; w_trace := [] |}.

(** Creation of a schema whose name holds a pipe. *)
Definition createPiped : World Sqlmock :=
  world (resourceData "" [] [("name", VString "a|b"); ("database", VString "D")])
    [ExpectExec None].



End sqlmock.

(** ** What a successful read writes

    The values [ReadSchema] has written once it returns nil, as a function
    of the scanned row; the theorems below show that the function computes
    them. *)

Definition withWritten (d : ResourceData) (wr : gmap string Value) : ResourceData :=
  {| id := id d; state := state d; planned := planned d; written := wr;
     partial := partial d; partialMap := partialMap d |}.

(** The effect of the loop over the options on the written values. *)
Fixpoint writeOptions (opts : list string) (wr : gmap string Value) : gmap string Value :=
  match opts with
  | [] => wr
  | opt :: rest =>
      writeOptions rest
        (if String.eqb opt "TRANSIENT" then <["is_transient" := VBool true]> wr
         else if String.eqb opt "MANAGED" then <["is_managed" := VBool true]> wr
         else wr)
  end.

Definition writeSchemaRow (r : SchemaRow) (wr : gmap string Value) : gmap string Value :=
  let wr := <["name" := VString (sql.String_ (name r))]> wr in
  let wr := <["database" := VString (sql.String_ (databaseName r))]> wr in
  let wr := <["comment" := VString (sql.String_ (comment r))]> wr in
  let wr := <["data_retention_days" := VInt (sql.Int64 (retentionTime r))]> wr in
  let wr := <["is_transient" := VBool false]> wr in
  let wr := <["is_managed" := VBool false]> wr in
  if negb (String.eqb (sql.String_ (options r)) "")
  then writeOptions (strings.Split (sql.String_ (options r)) ", ") wr
  else wr.



(** ** What a read of a managed account writes *)

(** The six attributes [ReadManagedAccount] sets before it looks at the
    account type. *)
Definition writeManagedAccountColumns (r : ManagedAccountRow) (wr : gmap string Value)
    : gmap string Value :=
  let wr := <["name" := VString (sql.String_ (ma_name r))]> wr in
  let wr := <["cloud" := VString (sql.String_ (ma_cloud r))]> wr in
  let wr := <["region" := VString (sql.String_ (ma_region r))]> wr in
  let wr := <["locator" := VString (sql.String_ (ma_locator r))]> wr in
  let wr := <["created_on" := VString (sql.String_ (ma_createdOn r))]> wr in
  <["url" := VString (sql.String_ (ma_url r))]> wr.

(** All that a read of a reader account sets. *)
Definition writeManagedAccountRow (r : ManagedAccountRow) (wr : gmap string Value)
    : gmap string Value :=
  <["comment" := VString (sql.String_ (ma_comment r))]>
    (<["type" := VString "READER"]> (writeManagedAccountColumns r wr)).

(** ** The statements of an update *)

(** The ALTER statements for the attributes that changed, in the order in
    which [UpdateSchema] looks at them. *)
Definition updateStatements {B : Type} `{snowflake.SchemaBuilder B}
    (d : ResourceData) (builder : B) : list string :=
  (if schema.HasChange schemaSchema d "comment"
   then [snowflake.ChangeComment builder
           (asString (snd (schema.GetChange schemaSchema d "comment")))]
   else [])
  ++ (if schema.HasChange schemaSchema d "is_managed"
      then [if asBool (snd (schema.GetChange schemaSchema d "is_managed"))
            then snowflake.Manage builder else snowflake.Unmanage builder]
      else [])
  ++ (if schema.HasChange schemaSchema d "data_retention_days"
      then [snowflake.ChangeDataRetentionDays builder
              (asInt (snd (schema.GetChange schemaSchema d "data_retention_days")))]
      else []).

(** The statements sent through [DBExec], in order. *)
Definition executed (tr : list Event) : list string :=
  flat_map (fun ev => match ev with EvExec q => [q] | _ => [] end) tr.

(** The resource data with the planned value of [k] replaced by [v]. *)
Definition withPlanned (k : string) (v : Value) (d : ResourceData) : ResourceData :=
  {| id := id d; state := state d; planned := <[k := v]> (planned d);
     written := written d; partial := partial d; partialMap := partialMap d |}.

(** ** Runs that see the same update *)

(** The attributes [UpdateSchema] can change in place. *)
Definition updatable : list string := ["comment"; "is_managed"; "data_retention_days"].

(** Two worlds with the same ID, database and trace whose data agree on the
    old and new values of the updatable attributes. *)
Definition sameUpdateInput {DB : Type} (w1 w2 : World DB) : Prop :=
  id (w_data w1) = id (w_data w2)
  /\ w_db w1 = w_db w2
  /\ w_trace w1 = w_trace w2
  /\ forall k : string,
      In k updatable ->
      schema.GetChange schemaSchema (w_data w1) k = schema.GetChange schemaSchema (w_data w2) k.

(** The computation [c] cannot tell such worlds apart. *)
Definition alike {DB A : Type} (c : M DB A) : Prop :=
  forall w1 w2 : World DB,
    sameUpdateInput w1 w2 ->
    fst (c w1) = fst (c w2) /\ sameUpdateInput (snd (c w1)) (snd (c w2)).


(** ** Trace invariants *)

(** The computation [c] adds only events that satisfy [P]. *)
Definition emitsOnly {DB A : Type} (P : Event -> Prop) (c : M DB A) : Prop :=
  forall w : World DB, Forall P (w_trace w) -> Forall P (w_trace (snd (c w))).

(** The computation [c] has no effect on the outside world. *)
Definition silent {DB A : Type} (c : M DB A) : Prop :=
  forall w : World DB, w_trace (snd (c w)) = w_trace w /\ w_db (snd (c w)) = w_db w.

(** Every event but the report of partial progress for the key [k]. *)
Definition notSetPartial (k : string) (ev : Event) : Prop :=
  match ev with
  | EvSetPartial k' => k' <> k
  | _ => True
  end.

(** * Properties *)

(** ** Splitting on the pipe *)

Section SplitPipe.

Local Abbreviation pipe := "|"%char.

(** One step of the split on a one-byte separator. *)
Lemma Split_pipe_cons (c : ascii) (s : string) :
  strings.Split (String c s) "|" =
  if Ascii.eqb pipe c
  then "" :: strings.Split s "|"
  else match strings.Split s "|" with
       | piece :: rest => String c piece :: rest
       | [] => [String c ""]
       end.
Proof.
  unfold strings.Split. cbn [strings.genSplit strings.HasPrefix].
  destruct (Ascii.eqb pipe c); reflexivity.
Qed.

Lemma Split_pipe_nil : strings.Split "" "|" = [""].
Proof. reflexivity. Qed.

Lemma Split_pipe_length (s : string) :
  length (strings.Split s "|") = S (strings.CountByte s pipe).
Proof.
  induction s as [|c s IH].
  - reflexivity.
  - rewrite Split_pipe_cons. cbn [strings.CountByte].
    destruct (Ascii.eqb pipe c).
    + cbn [length]. now rewrite IH.
    + destruct (strings.Split s "|") as [|piece rest]; [discriminate IH|].
      cbn [length] in *. lia.
Qed.

Lemma CountByte_app (a b : string) (c : ascii) :
  strings.CountByte (a ++ b) c = (strings.CountByte a c + strings.CountByte b c)%nat.
Proof.
  induction a as [|x a IH]; simpl; [reflexivity|].
  rewrite IH. lia.
Qed.

(** A string without a pipe is a single component. *)
Lemma Split_pipe_free (s : string) :
  strings.CountByte s pipe = 0%nat -> strings.Split s "|" = [s].
Proof.
  induction s as [|c s IH]; intros Hc; [reflexivity|].
  rewrite Split_pipe_cons. cbn [strings.CountByte] in Hc.
  destruct (Ascii.eqb pipe c); [discriminate Hc|].
  rewrite IH by exact Hc. reflexivity.
Qed.

(** The first pipe after a pipe-free prefix ends the first component. *)
Lemma Split_pipe_app (a b : string) :
  strings.CountByte a pipe = 0%nat ->
  strings.Split (a ++ "|" ++ b) "|" = a :: strings.Split b "|".
Proof.
  induction a as [|c a IH]; intros Hc.
  - change ("" ++ "|" ++ b) with (String pipe b). rewrite Split_pipe_cons. reflexivity.
  - change (String c a ++ "|" ++ b) with (String c (a ++ "|" ++ b)).
    rewrite Split_pipe_cons. cbn [strings.CountByte] in Hc.
    destruct (Ascii.eqb pipe c); [discriminate Hc|].
    rewrite IH by exact Hc. reflexivity.
Qed.

Lemma Join_cons (e e' : string) (rest : list string) (sep : string) :
  strings.Join (e :: e' :: rest) sep = e ++ sep ++ strings.Join (e' :: rest) sep.
Proof. reflexivity. Qed.

(** Joining the components with the pipe gives the string back. *)
Lemma Join_Split_pipe (s : string) :
  strings.Join (strings.Split s "|") "|" = s.
Proof.
  induction s as [|c s IH]; [reflexivity|].
  rewrite Split_pipe_cons.
  pose proof (Split_pipe_length s) as Hlen.
  destruct (strings.Split s "|") as [|piece rest]; [discriminate Hlen|].
  destruct (Ascii.eqb_spec pipe c) as [<-|Hne].
  - rewrite Join_cons, IH. reflexivity.
  - destruct rest as [|piece' rest].
    + cbn [strings.Join] in *. now rewrite IH.
    + rewrite Join_cons in *. rewrite <- IH. reflexivity.
Qed.

(** [splitSchemaID] succeeds exactly on the strings with two components. *)
Lemma splitSchemaID_inr (v a b : string) :
  splitSchemaID v = inr (a, b) <-> strings.Split v "|" = [a; b].
Proof.
  unfold splitSchemaID.
  destruct (strings.Split v "|") as [|x [|y [|z l]]]; split; intros E;
    try discriminate E; inversion E; reflexivity.
Qed.

Lemma splitSchemaID_inl (v : string) :
  length (strings.Split v "|") <> 2%nat ->
  splitSchemaID v = inl (fmt.Errorf ("ID " ++ v ++ " is invalid")).
Proof.
  unfold splitSchemaID.
  destruct (strings.Split v "|") as [|x [|y [|z l]]]; cbn [length]; intros E;
    try reflexivity. now contradiction E.
Qed.

(** The components of an encoded ID that has two of them hold no pipe. *)
Lemma encoded_two_components (database name : string) :
  length (strings.Split (database ++ "|" ++ name) "|") = 2%nat ->
  strings.CountByte database pipe = 0%nat /\ strings.CountByte name pipe = 0%nat.
Proof.
  rewrite Split_pipe_length, !CountByte_app. cbn [strings.CountByte].
  replace (Ascii.eqb pipe pipe) with true by reflexivity. lia.
Qed.

End SplitPipe.

(** C4. The composite ID round-trips: for components [database] and [name]
    whose encoding [database|name] is a well-formed two-component ID, decoding
    the encoding gives the two components back; every ID that decodes is the
    encoding of what it decodes to; and an input whose number of
    pipe-delimited components is not 2 is rejected with the error that quotes
    the offending ID. *)
Theorem splitSchemaID_roundtrip :
  (forall database name : string,
      length (strings.Split (database ++ "|" ++ name) "|") = 2%nat ->
      splitSchemaID (database ++ "|" ++ name) = inr (database, name))
  /\ (forall v database name : string,
         splitSchemaID v = inr (database, name) -> database ++ "|" ++ name = v)
  /\ (forall v : string,
         length (strings.Split v "|") <> 2%nat ->
         splitSchemaID v = inl (fmt.Errorf ("ID " ++ v ++ " is invalid"))).
Proof.
  split; [|split].
  - intros database name Hwf.
    destruct (encoded_two_components _ _ Hwf) as [Hd Hn].
    apply splitSchemaID_inr.
    rewrite Split_pipe_app by exact Hd.
    now rewrite Split_pipe_free by exact Hn.
  - intros v database name Hv. apply splitSchemaID_inr in Hv.
    rewrite <- (Join_Split_pipe v), Hv. reflexivity.
  - exact splitSchemaID_inl.
Qed.

Lemma splitSchemaID_roundtrip_witness :
  splitSchemaID ("D" ++ "|" ++ "S") = inr ("D", "S")
  /\ "D" ++ "|" ++ "S" = "D|S"
  /\ splitSchemaID "a|b|c" = inl (fmt.Errorf ("ID " ++ "a|b|c" ++ " is invalid")).
Proof.
  split; [|split].
  - apply (proj1 splitSchemaID_roundtrip "D" "S"). reflexivity.
  - apply (proj1 (proj2 splitSchemaID_roundtrip) "D|S" "D" "S"). reflexivity.
  - apply (proj2 (proj2 splitSchemaID_roundtrip) "a|b|c"). vm_compute. discriminate.
Defined.

(** C10. [splitSchemaID] looks at the number of pipes only: the ID ["|"]
    decodes to two empty names; every string with exactly one pipe decodes,
    to the text before the pipe and the text after it, whatever these are;
    and a string with no pipe or with more than one is rejected. *)
Theorem splitSchemaID_one_pipe :
  splitSchemaID "|" = inr ("", "")
  /\ (forall v : string,
         strings.CountByte v "|" = 1%nat ->
         exists database name : string,
           splitSchemaID v = inr (database, name) /\ v = database ++ "|" ++ name)
  /\ (forall v : string,
         strings.CountByte v "|" <> 1%nat ->
         splitSchemaID v = inl (fmt.Errorf ("ID " ++ v ++ " is invalid"))).
Proof.
  split; [reflexivity|split].
  - intros v Hv.
    assert (Hlen : length (strings.Split v "|") = 2%nat)
      by (rewrite Split_pipe_length; lia).
    destruct (strings.Split v "|") as [|a [|b [|c l]]] eqn:E; try discriminate Hlen.
    exists a, b. split.
    + now apply splitSchemaID_inr.
    + rewrite <- (Join_Split_pipe v), E. reflexivity.
  - intros v Hv. apply splitSchemaID_inl. rewrite Split_pipe_length. lia.
Qed.

Lemma splitSchemaID_one_pipe_witness :
  (exists database name : string,
      splitSchemaID "|S" = inr (database, name) /\ "|S" = database ++ "|" ++ name)
  /\ splitSchemaID "DS" = inl (fmt.Errorf ("ID " ++ "DS" ++ " is invalid")).
Proof.
  split.
  - apply (proj1 (proj2 splitSchemaID_one_pipe) "|S"). reflexivity.
  - apply (proj2 (proj2 splitSchemaID_one_pipe) "DS"). vm_compute. discriminate.
Defined.

(** ** Running the lifecycle functions *)

(** Unfolds the monad and the calls on [data] and [db] in the goal. *)
Ltac go_run :=
  cbv beta iota zeta delta
    [bind ret raise check getData putData emit
     data.Id data.SetId data.Get data.GetOk data.HasChange data.GetChange
     data.Set_ data.Partial data.SetPartial DBExec db.QueryRow db.Query
     log.Printf time.Sleep];
  cbn [w_data w_db w_trace fst snd].

Section Properties.
Context {DB Row B G : Type} `{SqlDB DB Row}
        `{Scanner Row SchemaRow} `{Scanner Row ManagedAccountRow}
        `{snowflake.SchemaBuilder B} `{snowflake.Builder G}.
Import snowflake.

(** *** Delete *)

(** C7. [DeleteSchema] parses the ID, executes the DROP statement and clears
    the ID only when the execution succeeds: on an ID that does not parse
    it returns the parse error and leaves everything as it was, nothing
    executed; when the DROP fails it returns the error wrapped, the data
    (and so the ID) unchanged; when the DROP succeeds it returns nil and the
    ID is the empty string. *)
Theorem DeleteSchema_clears_id_on_success (w : World DB) :
  (forall err : error,
      splitSchemaID (id (w_data w)) = inl err ->
      DeleteSchema (B := B) w = (Err err, w))
  /\ (forall (dbName schema_ : string) (err : error) (db' : DB),
         splitSchemaID (id (w_data w)) = inr (dbName, schema_) ->
         db_Exec (w_db w) (Drop (WithDB (Schema (B := B) schema_) dbName)) = (Some err, db') ->
         DeleteSchema (B := B) w =
         (Err (errors.Wrapf err ("error deleting schema " ++ id (w_data w))),
          {| w_data := w_data w; w_db := db';
             w_trace := w_trace w ++ [EvExec (Drop (WithDB (Schema (B := B) schema_) dbName))] |}))
  /\ (forall (dbName schema_ : string) (db' : DB),
         splitSchemaID (id (w_data w)) = inr (dbName, schema_) ->
         db_Exec (w_db w) (Drop (WithDB (Schema (B := B) schema_) dbName)) = (None, db') ->
         DeleteSchema (B := B) w =
         (Ok tt,
          {| w_data := schema.SetId (w_data w) ""; w_db := db';
             w_trace := w_trace w ++ [EvExec (Drop (WithDB (Schema (B := B) schema_) dbName))] |})
         /\ id (schema.SetId (w_data w) "") = "").
Proof.
  split; [|split].
  - intros err Hid. unfold DeleteSchema. go_run. rewrite Hid. reflexivity.
  - intros dbName schema_ err db' Hid Hexec. unfold DeleteSchema. go_run.
    rewrite Hid. cbn. rewrite Hexec. reflexivity.
  - intros dbName schema_ db' Hid Hexec. unfold DeleteSchema. go_run.
    rewrite Hid. cbn. rewrite Hexec. split; reflexivity.
Qed.

(** *** Exists *)






(** *** Read *)

Lemma Set_ok (sch : gmap string schema.Schema) (d : ResourceData) (k : string)
    (v : Value) (s : schema.Schema) :
  sch !! k = Some s ->
  hasType v (Type_ s) = true ->
  schema.Set_ sch d k v = inr (withWritten d (<[k := v]> (written d))).
Proof. intros Hk Ht. unfold schema.Set_. now rewrite Hk, Ht. Qed.

Lemma withWritten_id (d : ResourceData) : withWritten d (written d) = d.
Proof. now destruct d. Qed.

(** The loop over the options never fails and writes [writeOptions]. *)
Lemma forRange_options_run (opts : list string) (d : ResourceData) (m : DB)
    (tr : list Event) :
  forRange opts
    (fun opt =>
       if String.eqb opt "TRANSIENT" then data.Set_ schemaSchema "is_transient" (VBool true)
       else if String.eqb opt "MANAGED" then data.Set_ schemaSchema "is_managed" (VBool true)
       else ret tt)
    {| w_data := d; w_db := m; w_trace := tr |}
  = (Ok tt, {| w_data := withWritten d (writeOptions opts (written d));
               w_db := m; w_trace := tr |}).
Proof.
  revert d. induction opts as [|opt rest IH]; intros d.
  - cbn. now rewrite withWritten_id.
  - cbn [forRange writeOptions]. unfold bind at 1.
    destruct (String.eqb opt "TRANSIENT").
    + go_run. erewrite Set_ok by reflexivity. rewrite IH. reflexivity.
    + destruct (String.eqb opt "MANAGED").
      * go_run. erewrite Set_ok by reflexivity. rewrite IH. reflexivity.
      * go_run. rewrite IH. reflexivity.
Qed.

(** [ReadSchema] up to the scan: an ID that does not parse, and an error of
    the scan, are returned as they are. *)
Lemma ReadSchema_bad_id (w : World DB) (err : error) :
  splitSchemaID (id (w_data w)) = inl err ->
  ReadSchema (B := B) w = (Err err, w).
Proof. intros Hid. unfold ReadSchema. go_run. now rewrite Hid. Qed.

Lemma ReadSchema_scan_error (w : World DB) (dbName schema_ : string)
    (row : error + option Row) (db' : DB) (err : error) :
  splitSchemaID (id (w_data w)) = inr (dbName, schema_) ->
  db_QueryRow (w_db w) (Show (WithDB (Schema (B := B) schema_) dbName)) = (row, db') ->
  Scan (A := SchemaRow) row = inl err ->
  ReadSchema (B := B) w =
  (Err err, {| w_data := w_data w; w_db := db';
               w_trace := w_trace w ++ [EvQueryRow (Show (WithDB (Schema (B := B) schema_) dbName))] |}).
Proof.
  intros Hid Hq Hscan. unfold ReadSchema. go_run.
  rewrite Hid. cbn. rewrite Hq, Hscan. reflexivity.
Qed.

(** A read whose scan succeeds returns nil, having written the row. *)
Lemma ReadSchema_ok (w : World DB) (dbName schema_ : string)
    (row : error + option Row) (db' : DB) (r : SchemaRow) :
  splitSchemaID (id (w_data w)) = inr (dbName, schema_) ->
  db_QueryRow (w_db w) (Show (WithDB (Schema (B := B) schema_) dbName)) = (row, db') ->
  Scan (A := SchemaRow) row = inr r ->
  ReadSchema (B := B) w =
  (Ok tt, {| w_data := withWritten (w_data w) (writeSchemaRow r (written (w_data w)));
             w_db := db';
             w_trace := w_trace w ++ [EvQueryRow (Show (WithDB (Schema (B := B) schema_) dbName))] |}).
Proof.
  intros Hid Hq Hscan. unfold ReadSchema. go_run.
  rewrite Hid. cbn. rewrite Hq, Hscan.
  repeat (erewrite Set_ok by reflexivity; cbn [withWritten written id state planned partial partialMap]).
  unfold writeSchemaRow.
  destruct (negb (String.eqb (sql.String_ (options r)) "")).
  - match goal with
    | |- forRange ?l ?body ?w0 = _ =>
        change (forRange l body w0) with
          (forRange l
             (fun opt =>
                if String.eqb opt "TRANSIENT"
                then data.Set_ (DB := DB) schemaSchema "is_transient" (VBool true)
                else if String.eqb opt "MANAGED"
                     then data.Set_ schemaSchema "is_managed" (VBool true)
                     else ret tt) w0)
    end.
    rewrite forRange_options_run. reflexivity.
  - reflexivity.
Qed.

(** Every run of [ReadSchema] is one of the three above. *)
Lemma ReadSchema_cases (w : World DB) :
  (exists err, splitSchemaID (id (w_data w)) = inl err /\ ReadSchema (B := B) w = (Err err, w))
  \/ exists dbName schema_ row db',
      splitSchemaID (id (w_data w)) = inr (dbName, schema_)
      /\ db_QueryRow (w_db w) (Show (WithDB (Schema (B := B) schema_) dbName)) = (row, db')
      /\ ((exists err, Scan (A := SchemaRow) row = inl err
                       /\ fst (ReadSchema (B := B) w) = Err err)
          \/ (exists r, Scan (A := SchemaRow) row = inr r
                        /\ ReadSchema (B := B) w =
                           (Ok tt,
                            {| w_data := withWritten (w_data w) (writeSchemaRow r (written (w_data w)));
                               w_db := db';
                               w_trace := w_trace w ++ [EvQueryRow (Show (WithDB (Schema (B := B) schema_) dbName))] |}))).
Proof.
  destruct (splitSchemaID (id (w_data w))) as [err|[dbName schema_]] eqn:Hid.
  - left. exists err. split; [reflexivity|]. now apply ReadSchema_bad_id.
  - right.
    destruct (db_QueryRow (w_db w) (Show (WithDB (Schema (B := B) schema_) dbName)))
      as [row db'] eqn:Hq.
    exists dbName, schema_, row, db'. split; [reflexivity|]. split; [exact Hq|].
    destruct (Scan (A := SchemaRow) row) as [err|r] eqn:Hscan.
    + left. exists err. split; [reflexivity|].
      now rewrite (ReadSchema_scan_error w dbName schema_ row db' err Hid Hq Hscan).
    + right. exists r. split; [reflexivity|].
      exact (ReadSchema_ok w dbName schema_ row db' r Hid Hq Hscan).
Qed.

Lemma Get_written (sch : gmap string schema.Schema) (d : ResourceData) (k : string)
    (v : Value) (s : schema.Schema) :
  sch !! k = Some s ->
  written d !! k = Some v ->
  hasType v (Type_ s) = true ->
  schema.Get sch d k = v.
Proof.
  intros Hk Hw Ht. unfold schema.Get, schema.get, merged.
  rewrite Hk, (lookup_union_Some_l _ _ _ _ Hw). now rewrite Ht.
Qed.

Lemma existsb_elem_of (t : string) (l : list string) :
  existsb (fun opt => String.eqb opt t) l = bool_decide (t ∈ l).
Proof.
  induction l as [|x l IH]; cbn [existsb].
  - symmetry. apply bool_decide_eq_false. apply not_elem_of_nil.
  - rewrite IH. destruct (String.eqb_spec x t) as [->|Hne]; cbn.
    + symmetry. apply bool_decide_eq_true. apply elem_of_cons. now left.
    + apply bool_decide_ext. rewrite elem_of_cons. intuition congruence.
Qed.

Lemma writeOptions_transient (opts : list string) (wr : gmap string Value) :
  writeOptions opts wr !! "is_transient" =
  if existsb (fun opt => String.eqb opt "TRANSIENT") opts
  then Some (VBool true) else wr !! "is_transient".
Proof.
  revert wr. induction opts as [|opt rest IH]; intros wr; [reflexivity|].
  cbn [writeOptions existsb]. rewrite IH.
  destruct (String.eqb opt "TRANSIENT"); cbn [orb].
  - rewrite lookup_insert_eq. now destruct (existsb _ rest).
  - destruct (String.eqb opt "MANAGED"); [|reflexivity].
    now rewrite lookup_insert_ne by discriminate.
Qed.

Lemma writeOptions_managed (opts : list string) (wr : gmap string Value) :
  writeOptions opts wr !! "is_managed" =
  if existsb (fun opt => String.eqb opt "MANAGED") opts
  then Some (VBool true) else wr !! "is_managed".
Proof.
  revert wr. induction opts as [|opt rest IH]; intros wr; [reflexivity|].
  cbn [writeOptions existsb]. rewrite IH.
  destruct (String.eqb_spec opt "TRANSIENT") as [->|Hne]; cbn [orb String.eqb Ascii.eqb Bool.eqb].
  - now rewrite lookup_insert_ne by discriminate.
  - destruct (String.eqb opt "MANAGED"); cbn [orb]; [|reflexivity].
    rewrite lookup_insert_eq. now destruct (existsb _ rest).
Qed.

(** The two option attributes after a row has been written: true exactly
    when the token is among the pieces of the options string. *)
Lemma writeSchemaRow_options (r : SchemaRow) (wr : gmap string Value) :
  let opts := strings.Split (sql.String_ (options r)) ", " in
  writeSchemaRow r wr !! "is_transient" = Some (VBool (bool_decide ("TRANSIENT" ∈ opts)))
  /\ writeSchemaRow r wr !! "is_managed" = Some (VBool (bool_decide ("MANAGED" ∈ opts))).
Proof.
  intros opts. unfold writeSchemaRow. rewrite <- !existsb_elem_of.
  destruct (String.eqb_spec (sql.String_ (options r)) "") as [Hopts|Hopts]; cbn [negb].
  - subst opts. rewrite Hopts. cbn [strings.Split strings.genSplit existsb].
    split; [now rewrite lookup_insert_ne, lookup_insert_eq by discriminate
           |now rewrite lookup_insert_eq].
  - rewrite writeOptions_transient, writeOptions_managed. fold opts.
    split.
    + destruct (existsb _ opts); [reflexivity|].
      now rewrite lookup_insert_ne, lookup_insert_eq by discriminate.
    + destruct (existsb _ opts); [reflexivity|]. now rewrite lookup_insert_eq.
Qed.

(** C3. A successful [ReadSchema] re-derives the two boolean options from the
    options string of the row it scanned, whatever they were before:
    [is_transient] is true exactly when ["TRANSIENT"] is one of the pieces of
    the options string, [is_managed] exactly when ["MANAGED"] is; in
    particular both are false after a read that scanned an empty options
    string, also when an earlier read had set them. *)
Theorem ReadSchema_rederives_options (w w' : World DB) :
  ReadSchema (B := B) w = (Ok tt, w') ->
  exists (dbName schema_ : string) (r : SchemaRow),
    splitSchemaID (id (w_data w)) = inr (dbName, schema_)
    /\ Scan (fst (db_QueryRow (w_db w) (Show (WithDB (Schema (B := B) schema_) dbName)))) = inr r
    /\ (let opts := strings.Split (sql.String_ (options r)) ", " in
        schema.Get schemaSchema (w_data w') "is_transient"
        = VBool (bool_decide ("TRANSIENT" ∈ opts))
        /\ schema.Get schemaSchema (w_data w') "is_managed"
           = VBool (bool_decide ("MANAGED" ∈ opts)))
    /\ (sql.String_ (options r) = "" ->
        schema.Get schemaSchema (w_data w') "is_transient" = VBool false
        /\ schema.Get schemaSchema (w_data w') "is_managed" = VBool false).
Proof.
  intros Hrun.
  destruct (ReadSchema_cases w) as [[err [_ Hr]]|[dbName [schema_ [row [db' [Hid [Hq Hr]]]]]]].
  { rewrite Hr in Hrun. discriminate Hrun. }
  destruct Hr as [[err [_ Hr]]|[r [Hscan Hr]]].
  { rewrite Hrun in Hr. discriminate Hr. }
  rewrite Hr in Hrun. injection Hrun as <-.
  exists dbName, schema_, r. rewrite Hq. cbn [fst w_data].
  destruct (writeSchemaRow_options r (written (w_data w))) as [Ht Hm].
  assert (Hget :
    schema.Get schemaSchema
      (withWritten (w_data w) (writeSchemaRow r (written (w_data w)))) "is_transient"
    = VBool (bool_decide ("TRANSIENT" ∈ strings.Split (sql.String_ (options r)) ", "))
    /\ schema.Get schemaSchema
         (withWritten (w_data w) (writeSchemaRow r (written (w_data w)))) "is_managed"
       = VBool (bool_decide ("MANAGED" ∈ strings.Split (sql.String_ (options r)) ", "))).
  { split; eapply Get_written; try reflexivity; cbn [withWritten written]; eassumption. }
  split; [exact Hid|]. split; [exact Hscan|]. split; [exact Hget|].
  intros Hopts. rewrite (proj1 Hget), (proj2 Hget), Hopts. split; reflexivity.
Qed.

Lemma ReadManagedAccount_scan_error (w : World DB) (row : error + option Row)
    (db' : DB) (err : error) :
  db_QueryRow (w_db w) (ShowStmt (ManagedAccount (G := G) (id (w_data w)))) = (row, db') ->
  Scan (A := ManagedAccountRow) row = inl err ->
  ReadManagedAccount (G := G) w =
  (Err err, {| w_data := w_data w; w_db := db';
               w_trace := w_trace w
                          ++ [EvQueryRow (ShowStmt (ManagedAccount (G := G) (id (w_data w))))] |}).
Proof.
  intros Hq Hscan. unfold ReadManagedAccount. go_run.
  rewrite Hq, Hscan. reflexivity.
Qed.

(** C6. A read does not tell a missing row from any other failure of the
    query or of the scan: whatever error [row.Scan] returns, [ReadSchema] and
    [ReadManagedAccount] return that very error, not wrapped, and leave the
    data (the ID included) as it was. With no matching row the error is the
    scan's [sql.ErrNoRows]; with a failed query it is the query's error. *)
Theorem Read_returns_scan_error_as_is (w : World DB) :
  (forall (dbName schema_ : string) (row : error + option Row) (db' : DB),
      splitSchemaID (id (w_data w)) = inr (dbName, schema_) ->
      db_QueryRow (w_db w) (Show (WithDB (Schema (B := B) schema_) dbName)) = (row, db') ->
      let w' := {| w_data := w_data w; w_db := db';
                   w_trace := w_trace w
                              ++ [EvQueryRow (Show (WithDB (Schema (B := B) schema_) dbName))] |} in
      (forall err, Scan (A := SchemaRow) row = inl err ->
                   ReadSchema (B := B) w = (Err err, w'))
      /\ (row = inr None -> ReadSchema (B := B) w = (Err ErrNoRows, w'))
      /\ (forall err, row = inl err -> ReadSchema (B := B) w = (Err err, w')))
  /\ (forall (row : error + option Row) (db' : DB),
         db_QueryRow (w_db w) (ShowStmt (ManagedAccount (G := G) (id (w_data w)))) = (row, db') ->
         let w' := {| w_data := w_data w; w_db := db';
                      w_trace := w_trace w
                                 ++ [EvQueryRow (ShowStmt (ManagedAccount (G := G) (id (w_data w))))] |} in
         (forall err, Scan (A := ManagedAccountRow) row = inl err ->
                      ReadManagedAccount (G := G) w = (Err err, w'))
         /\ (row = inr None -> ReadManagedAccount (G := G) w = (Err ErrNoRows, w'))
         /\ (forall err, row = inl err -> ReadManagedAccount (G := G) w = (Err err, w'))).
Proof.
  split.
  - intros dbName schema_ row db' Hid Hq w'. split; [|split].
    + intros err Hscan. now apply ReadSchema_scan_error with (row := row).
    + intros ->. now apply ReadSchema_scan_error with (row := inr None).
    + intros err ->. now apply ReadSchema_scan_error with (row := inl err).
  - intros row db' Hq w'. split; [|split].
    + intros err Hscan. now apply ReadManagedAccount_scan_error with (row := row).
    + intros ->. now apply ReadManagedAccount_scan_error with (row := inr None).
    + intros err ->. now apply ReadManagedAccount_scan_error with (row := inl err).
Qed.

(** *** Create *)

Lemma writeOptions_other (k : string) (opts : list string) (wr : gmap string Value) :
  k <> "is_transient" -> k <> "is_managed" ->
  writeOptions opts wr !! k = wr !! k.
Proof.
  intros Ht Hm. revert wr. induction opts as [|opt rest IH]; intros wr; [reflexivity|].
  cbn [writeOptions]. rewrite IH.
  destruct (String.eqb opt "TRANSIENT"); [now rewrite lookup_insert_ne|].
  destruct (String.eqb opt "MANAGED"); [now rewrite lookup_insert_ne|reflexivity].
Qed.

(** The four attributes a read takes from the columns of the row. *)
Lemma writeSchemaRow_columns (r : SchemaRow) (wr : gmap string Value) :
  writeSchemaRow r wr !! "name" = Some (VString (sql.String_ (name r)))
  /\ writeSchemaRow r wr !! "database" = Some (VString (sql.String_ (databaseName r)))
  /\ writeSchemaRow r wr !! "comment" = Some (VString (sql.String_ (comment r)))
  /\ writeSchemaRow r wr !! "data_retention_days" = Some (VInt (sql.Int64 (retentionTime r))).
Proof.
  unfold writeSchemaRow.
  destruct (negb (String.eqb (sql.String_ (options r)) ""));
    rewrite ?writeOptions_other by discriminate;
    repeat split;
    repeat (rewrite lookup_insert_ne by discriminate); now rewrite lookup_insert_eq.
Qed.

Lemma CreateSchema_exec_error (w : World DB) (err : error) (db' : DB) :
  let d := w_data w in
  let q := Create (createSchemaBuilder (B := B) d) in
  db_Exec (w_db w) q = (Some err, db') ->
  CreateSchema (B := B) w =
  (Err (errors.Wrapf err ("error creating schema " ++ asString (schema.Get schemaSchema d "name"))),
   {| w_data := d; w_db := db'; w_trace := w_trace w ++ [EvExec q] |}).
Proof.
  intros d q Hexec. unfold CreateSchema. go_run. fold d. fold q.
  rewrite Hexec. reflexivity.
Qed.

Lemma CreateSchema_exec_ok (w : World DB) (db' : DB) :
  let d := w_data w in
  let q := Create (createSchemaBuilder (B := B) d) in
  db_Exec (w_db w) q = (None, db') ->
  CreateSchema (B := B) w =
  ReadSchema (B := B)
    {| w_data := schema.SetId d (asString (schema.Get schemaSchema d "database") ++ "|"
                                 ++ asString (schema.Get schemaSchema d "name"));
       w_db := db'; w_trace := w_trace w ++ [EvExec q] |}.
Proof.
  intros d q Hexec. unfold CreateSchema. go_run. fold d. fold q.
  rewrite Hexec. reflexivity.
Qed.


(** *** Retention of zero days *)







(** What [ReadSchema] returns, executes and does to the database depends on
    the data through the ID only. *)
Lemma ReadSchema_depends_on_id (w1 w2 : World DB) :
  id (w_data w1) = id (w_data w2) -> w_db w1 = w_db w2 -> w_trace w1 = w_trace w2 ->
  fst (ReadSchema (B := B) w1) = fst (ReadSchema (B := B) w2)
  /\ w_db (snd (ReadSchema (B := B) w1)) = w_db (snd (ReadSchema (B := B) w2))
  /\ w_trace (snd (ReadSchema (B := B) w1)) = w_trace (snd (ReadSchema (B := B) w2)).
Proof.
  intros Hid Hdb Htr.
  destruct (splitSchemaID (id (w_data w1))) as [err|[dbName schema_]] eqn:Hid1.
  - rewrite (ReadSchema_bad_id w1 err Hid1).
    rewrite Hid in Hid1. rewrite (ReadSchema_bad_id w2 err Hid1). cbn. auto.
  - destruct (db_QueryRow (w_db w1) (Show (WithDB (Schema (B := B) schema_) dbName)))
      as [row db'] eqn:Hq1.
    pose proof Hid1 as Hid2. rewrite Hid in Hid2.
    pose proof Hq1 as Hq2. rewrite Hdb in Hq2.
    destruct (Scan (A := SchemaRow) row) as [err|r] eqn:Hscan.
    + rewrite (ReadSchema_scan_error w1 _ _ _ _ _ Hid1 Hq1 Hscan).
      rewrite (ReadSchema_scan_error w2 _ _ _ _ _ Hid2 Hq2 Hscan).
      cbn. now rewrite Htr.
    + rewrite (ReadSchema_ok w1 _ _ _ _ _ Hid1 Hq1 Hscan).
      rewrite (ReadSchema_ok w2 _ _ _ _ _ Hid2 Hq2 Hscan).
      cbn. now rewrite Htr.
Qed.


(** *** The first read of a managed account *)

(** The rules of [silent]. *)
Lemma silent_ret {A : Type} (a : A) : silent (DB := DB) (ret a).
Proof. intros w. split; reflexivity. Qed.

Lemma silent_raise {A : Type} (e : error) : silent (DB := DB) (A := A) (raise e).
Proof. intros w. split; reflexivity. Qed.

Lemma silent_bind {A C : Type} (c : M DB A) (k : A -> M DB C) :
  silent c -> (forall a, silent (k a)) -> silent (bind c k).
Proof.
  intros Hc Hk w. unfold bind. destruct (Hc w) as [Ht Hd].
  destruct (c w) as [[a|e] w1]; cbn [snd] in *; [|now split].
  destruct (Hk a w1) as [Ht' Hd']. split; congruence.
Qed.

Lemma silent_Set (sch : gmap string schema.Schema) (k : string) (v : Value) :
  silent (data.Set_ (DB := DB) sch k v).
Proof.
  intros w. unfold data.Set_. go_run.
  destruct (schema.Set_ sch (w_data w) k v); split; reflexivity.
Qed.

Ltac silent_step :=
  lazymatch goal with
  | |- silent (bind _ _) => apply silent_bind; [|intros ?]
  | |- silent (data.Set_ _ _ _) => apply silent_Set
  | |- silent (ret _) => apply silent_ret
  | |- silent (raise _) => apply silent_raise
  | |- silent (check ?r) => destruct r; cbn [check]
  | |- silent (match ?x with _ => _ end) => destruct x
  end.

Lemma run_Id {A : Type} (k : string -> M DB A) (w : World DB) :
  bind data.Id k w = k (id (w_data w)) w.
Proof. reflexivity. Qed.

Lemma run_QueryRow {A : Type} (q : string) (k : error + option Row -> M DB A) (w : World DB) :
  bind (db.QueryRow q) k w
  = k (fst (db_QueryRow (w_db w) q))
      {| w_data := w_data w; w_db := snd (db_QueryRow (w_db w) q);
         w_trace := w_trace w ++ [EvQueryRow q] |}.
Proof. unfold bind, db.QueryRow. now destruct (db_QueryRow (w_db w) q). Qed.

(** Whatever it returns, [ReadManagedAccount] sends the one SHOW query and
    nothing else. *)
Lemma ReadManagedAccount_trace (w : World DB) :
  w_trace (snd (ReadManagedAccount (G := G) w))
  = (w_trace w ++ [EvQueryRow (ShowStmt (ManagedAccount (G := G) (id (w_data w))))])%list.
Proof.
  unfold ReadManagedAccount. rewrite run_Id, run_QueryRow.
  match goal with
  | |- w_trace (snd (bind ?c ?k ?w0)) = _ =>
      assert (Hs : silent (bind c k)); [|exact (proj1 (Hs w0))]
  end.
  repeat silent_step.
Qed.

Lemma initialReadManagedAccount_run (w : World DB) :
  initialReadManagedAccount (G := G) w
  = ReadManagedAccount (G := G)
      {| w_data := w_data w; w_db := w_db w;
         w_trace := w_trace w
                    ++ [EvLog "[INFO] sleeping to give the locator a chance to be generated";
                        EvSleep 10000000000] |}.
Proof.
  unfold initialReadManagedAccount. go_run. now rewrite <- app_assoc.
Qed.

(** C8. The first read of a managed account is one sleep of 10 seconds (a
    duration of 10^10 nanoseconds) followed by one call of
    [ReadManagedAccount]: whatever the data and the database,
    [initialReadManagedAccount] is [ReadManagedAccount] run after the log
    line and the sleep, and its effects are the log line, the sleep and the
    one SHOW query, in this order. So a managed-account Create whose CREATE
    statement succeeds executes the statement, sleeps once and reads once;
    one whose CREATE fails neither sleeps nor reads. *)
Theorem CreateManagedAccount_sleeps_once_then_reads (w : World DB) :
  let msg := "[INFO] sleeping to give the locator a chance to be generated" in
  (10 * time.Second = 10000000000)%Z
  /\ initialReadManagedAccount (G := G) w
     = ReadManagedAccount (G := G)
         {| w_data := w_data w; w_db := w_db w;
            w_trace := w_trace w ++ [EvLog msg; EvSleep (10 * time.Second)] |}
  /\ w_trace (snd (initialReadManagedAccount (G := G) w))
     = (w_trace w ++ [EvLog msg; EvSleep (10 * time.Second);
                      EvQueryRow (ShowStmt (ManagedAccount (G := G) (id (w_data w))))])%list
  /\ (let name_ := asString (schema.Get managedAccountSchema (w_data w) "name") in
      let q := CreateStmt (ManagedAccount (G := G) name_)
                 (setProperties managedAccountSchema (w_data w) managedAccountProperties) in
      (forall db' : DB,
          db_Exec (w_db w) q = (None, db') ->
          w_trace (snd (CreateManagedAccount (G := G) w))
          = (w_trace w
             ++ [EvExec q; EvLog msg; EvSleep (10 * time.Second);
                 EvQueryRow (ShowStmt (ManagedAccount (G := G) name_))])%list)
      /\ (forall (err : error) (db' : DB),
             db_Exec (w_db w) q = (Some err, db') ->
             CreateManagedAccount (G := G) w
             = (Err (errors.Wrapf err "error creating this does not seem to be used"),
                {| w_data := w_data w; w_db := db'; w_trace := w_trace w ++ [EvExec q] |}))).
Proof.
  intros msg. split; [reflexivity|]. split; [apply initialReadManagedAccount_run|].
  split.
  - rewrite initialReadManagedAccount_run, ReadManagedAccount_trace.
    cbn [w_trace w_data]. now rewrite <- app_assoc.
  - intros name_ q. unfold CreateManagedAccount, CreateResource. go_run.
    fold name_. fold q. split.
    + intros db' Hexec. rewrite Hexec.
      match goal with
      | |- w_trace (snd (initialReadManagedAccount ?w0)) = _ =>
          rewrite (initialReadManagedAccount_run w0), ReadManagedAccount_trace
      end.
      cbn [w_trace w_data schema.SetId id]. now rewrite <- !app_assoc.
    + intros err db' Hexec. rewrite Hexec. reflexivity.
Qed.

(** *** Update *)

Lemma HasChange_Partial (d : ResourceData) (on : bool) (k : string) :
  schema.HasChange schemaSchema (schema.Partial d on) k = schema.HasChange schemaSchema d k.
Proof. reflexivity. Qed.

(** When only the retention changed and its ALTER fails, [UpdateSchema]
    returns the wrapped error with the partial mode already switched off and
    no key recorded. *)
Lemma UpdateSchema_retention_failure (w : World DB) (dbName schema_ : string)
    (err : error) (db' : DB) :
  let d := w_data w in
  let q := ChangeDataRetentionDays (WithDB (Schema (B := B) schema_) dbName)
             (asInt (snd (schema.GetChange schemaSchema d "data_retention_days"))) in
  splitSchemaID (id d) = inr (dbName, schema_) ->
  schema.HasChange schemaSchema d "comment" = false ->
  schema.HasChange schemaSchema d "is_managed" = false ->
  schema.HasChange schemaSchema d "data_retention_days" = true ->
  db_Exec (w_db w) q = (Some err, db') ->
  UpdateSchema (B := B) w
  = (Err (errors.Wrapf err ("error updating data retention days on " ++ id d)),
     {| w_data := schema.Partial (schema.Partial d true) false; w_db := db';
        w_trace := w_trace w ++ [EvPartial true; EvPartial false; EvExec q] |})
  /\ partial (schema.Partial (schema.Partial d true) false) = false
  /\ partialMap (schema.Partial (schema.Partial d true) false) = None.
Proof.
  intros d q Hid Hc Hm Hr Hexec. split; [|split; reflexivity].
  unfold UpdateSchema. go_run. fold d.
  change (id (schema.Partial d true)) with (id d). rewrite Hid. cbn [w_data].
  rewrite !HasChange_Partial. fold d. rewrite Hc. cbn [w_data].
  rewrite !HasChange_Partial, Hm. cbn [w_data].
  rewrite !HasChange_Partial, Hr. cbn [w_data w_db w_trace].
  change (schema.GetChange schemaSchema (schema.Partial (schema.Partial d true) false)
            "data_retention_days")
    with (schema.GetChange schemaSchema d "data_retention_days").
  cbn [w_db]. fold q. rewrite Hexec. cbn [w_trace].
  now rewrite <- !app_assoc.
Qed.

(** Folds the reads of changes back to the data the update started from:
    the partial-state calls leave state and plan alone. *)
Ltac changes_of d :=
  repeat match goal with
    | |- context [schema.HasChange schemaSchema ?x ?k] =>
        lazymatch x with
        | d => fail
        | _ => change (schema.HasChange schemaSchema x k)
                 with (schema.HasChange schemaSchema d k)
        end
    | |- context [schema.GetChange schemaSchema ?x ?k] =>
        lazymatch x with
        | d => fail
        | _ => change (schema.GetChange schemaSchema x k)
                 with (schema.GetChange schemaSchema d k)
        end
    | |- context [id ?x] =>
        lazymatch x with
        | d => fail
        | _ => change (id x) with (id d)
        end
    end.

(** When the three attributes change and the server accepts the three
    statements, [UpdateSchema] runs one ALTER per attribute, in the order
    comment, managed access, retention, and ends with the read. *)
Lemma UpdateSchema_all_changed (w : World DB) (dbName schema_ : string) (db1 db2 db3 : DB) :
  let d := w_data w in
  let builder := WithDB (Schema (B := B) schema_) dbName in
  let q1 := ChangeComment builder (asString (snd (schema.GetChange schemaSchema d "comment"))) in
  let q2 := if asBool (snd (schema.GetChange schemaSchema d "is_managed"))
            then Manage builder else Unmanage builder in
  let q3 := ChangeDataRetentionDays builder
              (asInt (snd (schema.GetChange schemaSchema d "data_retention_days"))) in
  splitSchemaID (id d) = inr (dbName, schema_) ->
  schema.HasChange schemaSchema d "comment" = true ->
  schema.HasChange schemaSchema d "is_managed" = true ->
  schema.HasChange schemaSchema d "data_retention_days" = true ->
  db_Exec (w_db w) q1 = (None, db1) ->
  db_Exec db1 q2 = (None, db2) ->
  db_Exec db2 q3 = (None, db3) ->
  UpdateSchema (B := B) w
  = ReadSchema (B := B)
      {| w_data := schema.Partial
                     (schema.SetPartial
                        (schema.SetPartial (schema.Partial d true) "comment") "is_managed")
                     false;
         w_db := db3;
         w_trace := w_trace w
                    ++ [EvPartial true; EvExec q1; EvSetPartial "comment";
                        EvExec q2; EvSetPartial "is_managed"; EvPartial false; EvExec q3] |}.
Proof.
  intros d builder q1 q2 q3 Hid Hc Hm Hr H1' H2' H3'.
  unfold UpdateSchema. go_run. fold d. changes_of d.
  rewrite Hid. cbn [w_data w_db w_trace]. changes_of d.
  rewrite Hc. cbn [w_data w_db w_trace]. changes_of d.
  fold builder. fold q1. rewrite H1'. cbn [w_data w_db w_trace]. changes_of d.
  rewrite Hm. cbn [w_data w_db w_trace]. changes_of d.
  fold q2. rewrite H2'. cbn [w_data w_db w_trace]. changes_of d.
  rewrite Hr. cbn [w_data w_db w_trace]. changes_of d.
  fold q3. rewrite H3'. cbn [w_data w_db w_trace].
  now rewrite <- !app_assoc.
Qed.

(** The rules of [emitsOnly], one per construct of the lifecycle functions. *)
Section EmitsOnly.
Variable P : Event -> Prop.

Lemma emitsOnly_ret {A : Type} (a : A) : emitsOnly (DB := DB) P (ret a).
Proof. intros w Hw. exact Hw. Qed.

Lemma emitsOnly_raise {A : Type} (e : error) : emitsOnly (DB := DB) (A := A) P (raise e).
Proof. intros w Hw. exact Hw. Qed.

Lemma emitsOnly_bind {A C : Type} (c : M DB A) (k : A -> M DB C) :
  emitsOnly P c -> (forall a, emitsOnly P (k a)) -> emitsOnly P (bind c k).
Proof.
  intros Hc Hk w Hw. unfold bind. specialize (Hc w Hw).
  destruct (c w) as [[a|e] w1]; cbn [snd] in *; [now apply Hk|exact Hc].
Qed.

Lemma emitsOnly_emit (ev : Event) : P ev -> emitsOnly (DB := DB) P (emit ev).
Proof.
  intros Hev w Hw. cbn. apply Forall_app. split; [exact Hw|]. now constructor.
Qed.

Lemma emitsOnly_getData : emitsOnly (DB := DB) P getData.
Proof. intros w Hw. exact Hw. Qed.

Lemma emitsOnly_putData (d : ResourceData) : emitsOnly (DB := DB) P (putData d).
Proof. intros w Hw. exact Hw. Qed.

Lemma emitsOnly_check {A : Type} (r : error + A) : emitsOnly (DB := DB) P (check r).
Proof. destruct r; intros w Hw; exact Hw. Qed.

Lemma emitsOnly_DBExec (q : string) : P (EvExec q) -> emitsOnly P (DBExec (DB := DB) q).
Proof.
  intros Hev w Hw. unfold DBExec. destruct (db_Exec (w_db w) q) as [err db'].
  cbn. apply Forall_app. split; [exact Hw|]. now constructor.
Qed.

Lemma emitsOnly_QueryRow (q : string) :
  P (EvQueryRow q) -> emitsOnly P (db.QueryRow (DB := DB) q).
Proof.
  intros Hev w Hw. unfold db.QueryRow. destruct (db_QueryRow (w_db w) q) as [row db'].
  cbn. apply Forall_app. split; [exact Hw|]. now constructor.
Qed.

Lemma emitsOnly_forRange {A : Type} (xs : list A) (body : A -> M DB unit) :
  (forall x, emitsOnly P (body x)) -> emitsOnly P (forRange xs body).
Proof.
  intros Hbody. induction xs as [|x rest IH]; cbn [forRange].
  - apply emitsOnly_ret.
  - apply emitsOnly_bind; [apply Hbody|intros _; exact IH].
Qed.

Lemma emitsOnly_Set (sch : gmap string schema.Schema) (k : string) (v : Value) :
  emitsOnly P (data.Set_ (DB := DB) sch k v).
Proof. intros w Hw. now rewrite (proj1 (silent_Set sch k v w)). Qed.

End EmitsOnly.

(** Applies the rules down the structure of a lifecycle function. *)
Ltac emits_step :=
  lazymatch goal with
  | |- emitsOnly _ (bind _ _) => apply emitsOnly_bind; [|intros ?]
  | |- emitsOnly _ (ret _) => apply emitsOnly_ret
  | |- emitsOnly _ (raise _) => apply emitsOnly_raise
  | |- emitsOnly _ getData => apply emitsOnly_getData
  | |- emitsOnly _ (putData _) => apply emitsOnly_putData
  | |- emitsOnly _ (check _) => apply emitsOnly_check
  | |- emitsOnly _ (data.Set_ _ _ _) => apply emitsOnly_Set
  | |- emitsOnly _ data.Id => unfold data.Id
  | |- emitsOnly _ (data.HasChange _ _) => unfold data.HasChange
  | |- emitsOnly _ (data.GetChange _ _) => unfold data.GetChange
  | |- emitsOnly _ (data.Partial _) => unfold data.Partial
  | |- emitsOnly _ (data.SetPartial _) => unfold data.SetPartial
  | |- emitsOnly _ (emit (EvPartial _)) => apply emitsOnly_emit; exact I
  | |- emitsOnly _ (emit (EvSetPartial _)) => apply emitsOnly_emit; cbn; discriminate
  | |- emitsOnly _ (DBExec _) => apply emitsOnly_DBExec; exact I
  | |- emitsOnly _ (db.QueryRow _) => apply emitsOnly_QueryRow; exact I
  | |- emitsOnly _ (forRange _ _) => apply emitsOnly_forRange; intros ?
  | |- emitsOnly _ (match ?x with _ => _ end) => destruct x
  end.

Ltac emits_only := repeat emits_step.

Lemma ReadSchema_emits_no_SetPartial (k : string) :
  emitsOnly (notSetPartial k) (ReadSchema (DB := DB) (B := B)).
Proof. unfold ReadSchema. emits_only. Qed.

(** Whatever the data and the database, [UpdateSchema] never reports partial
    progress for [data_retention_days]. *)
Lemma UpdateSchema_never_SetPartial_retention :
  emitsOnly (notSetPartial "data_retention_days") (UpdateSchema (DB := DB) (B := B)).
Proof.
  unfold UpdateSchema. emits_only. apply ReadSchema_emits_no_SetPartial.
Qed.

Lemma UpdateSchema_no_retention_progress (w : World DB) :
  w_trace w = [] ->
  EvSetPartial "data_retention_days" ∉ w_trace (snd (UpdateSchema (B := B) w)).
Proof.
  intros Hempty Hin.
  assert (Hall : Forall (notSetPartial "data_retention_days")
                   (w_trace (snd (UpdateSchema (B := B) w)))).
  { apply UpdateSchema_never_SetPartial_retention. rewrite Hempty. constructor. }
  rewrite Forall_forall in Hall. apply (Hall _ Hin). reflexivity.
Qed.

(** *** More on [ReadSchema] *)

Lemma ReadSchema_trace (w : World DB) :
  w_trace (snd (ReadSchema (B := B) w))
  = (w_trace w
     ++ match splitSchemaID (id (w_data w)) with
        | inl _ => []
        | inr (dbName, schema_) =>
            [EvQueryRow (Show (WithDB (Schema (B := B) schema_) dbName))]
        end)%list.
Proof.
  destruct (ReadSchema_cases w) as [[err [Hid Hr]]|[dbName [schema_ [row [db' [Hid [Hq Hr]]]]]]];
    rewrite Hid.
  - rewrite Hr. cbn. now rewrite app_nil_r.
  - destruct Hr as [[err [Hscan _]]|[r [_ Hr]]].
    + now rewrite (ReadSchema_scan_error w _ _ _ _ _ Hid Hq Hscan).
    + now rewrite Hr.
Qed.

Lemma writeSchemaRow_other (k : string) (r : SchemaRow) (wr : gmap string Value) :
  k <> "name" -> k <> "database" -> k <> "comment" -> k <> "data_retention_days" ->
  k <> "is_transient" -> k <> "is_managed" ->
  writeSchemaRow r wr !! k = wr !! k.
Proof.
  intros H1' H2' H3' H4' H5' H6'. unfold writeSchemaRow.
  destruct (negb (String.eqb (sql.String_ (options r)) ""));
    rewrite ?writeOptions_other by assumption;
    now rewrite !lookup_insert_ne by congruence.
Qed.

(** X1. [ReadSchema] returns nil exactly when the ID parses and the scan of
    the row succeeds: the writes to the bag never fail. *)
Theorem ReadSchema_succeeds_iff (w : World DB) :
  fst (ReadSchema (B := B) w) = Ok tt
  <-> exists (dbName schema_ : string) (r : SchemaRow),
      splitSchemaID (id (w_data w)) = inr (dbName, schema_)
      /\ Scan (fst (db_QueryRow (w_db w) (Show (WithDB (Schema (B := B) schema_) dbName))))
         = inr r.
Proof.
  split.
  - intros Hok.
    destruct (ReadSchema_cases w) as [[err [_ Hr]]|[dbName [schema_ [row [db' [Hid [Hq Hr]]]]]]].
    { rewrite Hr in Hok. discriminate Hok. }
    destruct Hr as [[err [_ Hr]]|[r [Hscan _]]].
    { rewrite Hok in Hr. discriminate Hr. }
    exists dbName, schema_, r. now rewrite Hq.
  - intros [dbName [schema_ [r [Hid Hscan]]]].
    destruct (db_QueryRow (w_db w) (Show (WithDB (Schema (B := B) schema_) dbName)))
      as [row db'] eqn:Hq.
    now rewrite (ReadSchema_ok w _ _ _ _ _ Hid Hq Hscan).
Qed.

Lemma ReadSchema_frame (w : World DB) :
  let d := w_data w in
  let d' := w_data (snd (ReadSchema (B := B) w)) in
  id d' = id d /\ state d' = state d /\ planned d' = planned d
  /\ partial d' = partial d /\ partialMap d' = partialMap d
  /\ (forall k : string, schemaSchema !! k = None -> written d' !! k = written d !! k)
  /\ (forall err : error, fst (ReadSchema (B := B) w) = Err err -> d' = d).
Proof.
  intros d d'. subst d d'.
  destruct (ReadSchema_cases w) as [[err [Hid Hr]]|[dbName [schema_ [row [db' [Hid [Hq Hr]]]]]]].
  { rewrite Hr. cbn [snd fst]. repeat split; reflexivity. }
  destruct Hr as [[err [Hscan _]]|[r [_ Hr]]].
  { rewrite (ReadSchema_scan_error w _ _ _ _ _ Hid Hq Hscan). cbn [snd fst w_data].
    repeat split; reflexivity. }
  rewrite Hr. cbn [snd fst w_data withWritten id state planned partial partialMap written].
  repeat split; try reflexivity.
  - intros k Hk. apply writeSchemaRow_other; intros ->; discriminate Hk.
  - intros err Herr. discriminate Herr.
Qed.

(** X2. Whatever it returns, [ReadSchema] keeps the ID, the prior state, the
    planned values and the partial mode of the data, and writes no key
    outside the attribute schema; when it returns an error the data are
    exactly as they were. *)
Theorem ReadSchema_keeps_the_rest (w : World DB) :
  let d := w_data w in
  let d' := w_data (snd (ReadSchema (B := B) w)) in
  id d' = id d /\ state d' = state d /\ planned d' = planned d
  /\ partial d' = partial d /\ partialMap d' = partialMap d
  /\ (forall k : string, schemaSchema !! k = None -> written d' !! k = written d !! k)
  /\ (forall err : error, fst (ReadSchema (B := B) w) = Err err -> d' = d).
Proof. exact (ReadSchema_frame w). Qed.

Lemma writeSchemaRow_idempotent (r : SchemaRow) (wr : gmap string Value) :
  writeSchemaRow r (writeSchemaRow r wr) = writeSchemaRow r wr.
Proof.
  apply map_eq. intros k.
  destruct (writeSchemaRow_columns r wr) as [Hn [Hd [Hc Hr]]].
  destruct (writeSchemaRow_columns r (writeSchemaRow r wr)) as [Hn' [Hd' [Hc' Hr']]].
  destruct (writeSchemaRow_options r wr) as [Ht Hm].
  destruct (writeSchemaRow_options r (writeSchemaRow r wr)) as [Ht' Hm'].
  destruct (decide (k = "name")) as [->|?]; [congruence|].
  destruct (decide (k = "database")) as [->|?]; [congruence|].
  destruct (decide (k = "comment")) as [->|?]; [congruence|].
  destruct (decide (k = "data_retention_days")) as [->|?]; [congruence|].
  destruct (decide (k = "is_transient")) as [->|?]; [congruence|].
  destruct (decide (k = "is_managed")) as [->|?]; [congruence|].
  now rewrite !writeSchemaRow_other by assumption.
Qed.

(** X3. Reading is idempotent: when two reads in a row both scan the row
    [r], the second returns nil as the first did and leaves the data as the
    first left them. *)
Theorem ReadSchema_idempotent (w : World DB) (dbName schema_ : string) (r : SchemaRow) :
  let q := Show (WithDB (Schema (B := B) schema_) dbName) in
  let w1 := snd (ReadSchema (B := B) w) in
  splitSchemaID (id (w_data w)) = inr (dbName, schema_) ->
  Scan (fst (db_QueryRow (w_db w) q)) = inr r ->
  Scan (fst (db_QueryRow (w_db w1) q)) = inr r ->
  fst (ReadSchema (B := B) w) = Ok tt
  /\ fst (ReadSchema (B := B) w1) = Ok tt
  /\ w_data (snd (ReadSchema (B := B) w1)) = w_data w1.
Proof.
  intros q w1 Hid Hscan Hscan1. subst w1.
  destruct (db_QueryRow (w_db w) q) as [row db'] eqn:Hq. cbn [fst] in Hscan.
  rewrite (ReadSchema_ok w _ _ _ _ _ Hid Hq Hscan) in *. cbn [fst snd w_db] in *.
  split; [reflexivity|].
  destruct (db_QueryRow db' q) as [row1 db1] eqn:Hq1. cbn [fst] in Hscan1.
  match goal with
  | |- context [ReadSchema ?w0] =>
      rewrite (ReadSchema_ok w0 dbName schema_ row1 db1 r Hid Hq1 Hscan1)
  end.
  cbn [fst snd w_data withWritten written id state planned partial partialMap].
  split; [reflexivity|]. now rewrite writeSchemaRow_idempotent.
Qed.


(** *** More on the managed account *)

Lemma ReadManagedAccount_not_reader_run (w : World DB) (row : error + option Row)
    (db' : DB) (r : ManagedAccountRow) :
  db_QueryRow (w_db w) (ShowStmt (ManagedAccount (G := G) (id (w_data w)))) = (row, db') ->
  Scan (A := ManagedAccountRow) row = inr r ->
  ma_isReader r = false ->
  ReadManagedAccount (G := G) w
  = (Err (fmt.Errorf "Unable to determine the account type"),
     {| w_data := withWritten (w_data w) (writeManagedAccountColumns r (written (w_data w)));
        w_db := db';
        w_trace := w_trace w
                   ++ [EvQueryRow (ShowStmt (ManagedAccount (G := G) (id (w_data w))))] |}).
Proof.
  intros Hq Hscan Hreader. unfold ReadManagedAccount. go_run.
  rewrite Hq, Hscan.
  do 6 (erewrite Set_ok by reflexivity;
        cbn [withWritten written id state planned partial partialMap]).
  rewrite Hreader. reflexivity.
Qed.

Lemma ReadManagedAccount_reader_run (w : World DB) (row : error + option Row)
    (db' : DB) (r : ManagedAccountRow) :
  db_QueryRow (w_db w) (ShowStmt (ManagedAccount (G := G) (id (w_data w)))) = (row, db') ->
  Scan (A := ManagedAccountRow) row = inr r ->
  ma_isReader r = true ->
  ReadManagedAccount (G := G) w
  = (Ok tt,
     {| w_data := withWritten (w_data w) (writeManagedAccountRow r (written (w_data w)));
        w_db := db';
        w_trace := w_trace w
                   ++ [EvQueryRow (ShowStmt (ManagedAccount (G := G) (id (w_data w))))] |}).
Proof.
  intros Hq Hscan Hreader. unfold ReadManagedAccount. go_run.
  rewrite Hq, Hscan.
  do 6 (erewrite Set_ok by reflexivity;
        cbn [withWritten written id state planned partial partialMap]).
  rewrite Hreader.
  do 2 (erewrite Set_ok by reflexivity;
        cbn [withWritten written id state planned partial partialMap]).
  reflexivity.
Qed.

(** X4. A managed account that the server does not report as a reader makes
    [ReadManagedAccount] fail with "Unable to determine the account type",
    but only after name, cloud, region, locator, created_on and url have been
    written from the row: the bag is left half-updated, with type and comment
    as they were. *)
Theorem ReadManagedAccount_not_reader (w : World DB) (r : ManagedAccountRow) :
  let q := ShowStmt (ManagedAccount (G := G) (id (w_data w))) in
  let d := w_data w in
  let d' := w_data (snd (ReadManagedAccount (G := G) w)) in
  Scan (fst (db_QueryRow (w_db w) q)) = inr r ->
  ma_isReader r = false ->
  fst (ReadManagedAccount (G := G) w) = Err (fmt.Errorf "Unable to determine the account type")
  /\ schema.Get managedAccountSchema d' "name" = VString (sql.String_ (ma_name r))
  /\ schema.Get managedAccountSchema d' "cloud" = VString (sql.String_ (ma_cloud r))
  /\ schema.Get managedAccountSchema d' "region" = VString (sql.String_ (ma_region r))
  /\ schema.Get managedAccountSchema d' "locator" = VString (sql.String_ (ma_locator r))
  /\ schema.Get managedAccountSchema d' "created_on" = VString (sql.String_ (ma_createdOn r))
  /\ schema.Get managedAccountSchema d' "url" = VString (sql.String_ (ma_url r))
  /\ schema.Get managedAccountSchema d' "type" = schema.Get managedAccountSchema d "type"
  /\ schema.Get managedAccountSchema d' "comment" = schema.Get managedAccountSchema d "comment"
  /\ id d' = id d.
Proof.
  intros q d d' Hscan Hreader. subst d d'.
  destruct (db_QueryRow (w_db w) q) as [row db'] eqn:Hq. cbn [fst] in Hscan.
  rewrite (ReadManagedAccount_not_reader_run w row db' r Hq Hscan Hreader).
  cbn [fst snd w_data].
  split; [reflexivity|].
  repeat split;
    try (eapply Get_written; [reflexivity| |reflexivity];
         cbn [withWritten written]; unfold writeManagedAccountColumns;
         repeat (rewrite lookup_insert_ne by discriminate); now rewrite lookup_insert_eq).
  - unfold schema.Get, merged. cbn [withWritten written planned].
    unfold schema.get, writeManagedAccountColumns.
    now rewrite !(lookup_union (M := gmap string)), !lookup_insert_ne by discriminate.
  - unfold schema.Get, merged. cbn [withWritten written planned].
    unfold schema.get, writeManagedAccountColumns.
    now rewrite !(lookup_union (M := gmap string)), !lookup_insert_ne by discriminate.
Qed.

(** X5. [ReadManagedAccount] returns nil exactly when the scan succeeds and
    the row is that of a reader account; the bag then holds the row's name,
    cloud, region, locator, creation time, url and comment, and the type
    [READER]. The ID is not touched. *)
Theorem ReadManagedAccount_succeeds_iff (w : World DB) :
  let q := ShowStmt (ManagedAccount (G := G) (id (w_data w))) in
  let d' := w_data (snd (ReadManagedAccount (G := G) w)) in
  (fst (ReadManagedAccount (G := G) w) = Ok tt
   <-> exists r : ManagedAccountRow,
       Scan (fst (db_QueryRow (w_db w) q)) = inr r /\ ma_isReader r = true)
  /\ (forall r : ManagedAccountRow,
         Scan (fst (db_QueryRow (w_db w) q)) = inr r ->
         ma_isReader r = true ->
         schema.Get managedAccountSchema d' "name" = VString (sql.String_ (ma_name r))
         /\ schema.Get managedAccountSchema d' "cloud" = VString (sql.String_ (ma_cloud r))
         /\ schema.Get managedAccountSchema d' "region" = VString (sql.String_ (ma_region r))
         /\ schema.Get managedAccountSchema d' "locator" = VString (sql.String_ (ma_locator r))
         /\ schema.Get managedAccountSchema d' "created_on"
            = VString (sql.String_ (ma_createdOn r))
         /\ schema.Get managedAccountSchema d' "url" = VString (sql.String_ (ma_url r))
         /\ schema.Get managedAccountSchema d' "type" = VString SnowflakeReaderAccountType
         /\ schema.Get managedAccountSchema d' "comment" = VString (sql.String_ (ma_comment r))
         /\ id d' = id (w_data w)).
Proof.
  intros q d'. subst d'.
  destruct (db_QueryRow (w_db w) q) as [row db'] eqn:Hq. cbn [fst].
  split.
  - split.
    + intros Hok. destruct (Scan (A := ManagedAccountRow) row) as [err|r] eqn:Hscan.
      * rewrite (ReadManagedAccount_scan_error w row db' err Hq Hscan) in Hok. discriminate Hok.
      * destruct (ma_isReader r) eqn:Hreader; [now exists r|].
        rewrite (ReadManagedAccount_not_reader_run w row db' r Hq Hscan Hreader) in Hok.
        discriminate Hok.
    + intros [r [Hscan Hreader]].
      now rewrite (ReadManagedAccount_reader_run w row db' r Hq Hscan Hreader).
  - intros r Hscan Hreader.
    rewrite (ReadManagedAccount_reader_run w row db' r Hq Hscan Hreader).
    cbn [fst snd w_data].
    repeat split;
      try (eapply Get_written; [reflexivity| |reflexivity];
           cbn [withWritten written];
           unfold writeManagedAccountRow, writeManagedAccountColumns;
           repeat (rewrite lookup_insert_ne by discriminate); now rewrite lookup_insert_eq).
Qed.

(** *** More on Exists *)

(** X6. The Exists functions never touch the resource data, and they close
    the rows exactly when the query succeeded: after a successful query the
    effects are the query and the close, after a failed one the query alone,
    and for a schema ID that does not parse there is no effect at all. *)
Theorem Exists_effects (w : World DB) :
  w_data (snd (SchemaExists (B := B) w)) = w_data w
  /\ w_trace (snd (SchemaExists (B := B) w))
     = (w_trace w
        ++ match splitSchemaID (id (w_data w)) with
           | inl _ => []
           | inr (dbName, schema_) =>
               let q := Show (WithDB (Schema (B := B) schema_) dbName) in
               match fst (db_Query (w_db w) q) with
               | inl _ => [EvQuery q]
               | inr _ => [EvQuery q; EvRowsClose]
               end
           end)%list
  /\ w_data (snd (ManagedAccountExists (G := G) w)) = w_data w
  /\ w_trace (snd (ManagedAccountExists (G := G) w))
     = (w_trace w
        ++ let q := ShowStmt (ManagedAccount (G := G) (id (w_data w))) in
           match fst (db_Query (w_db w) q) with
           | inl _ => [EvQuery q]
           | inr _ => [EvQuery q; EvRowsClose]
           end)%list.
Proof.
  split; [|split; [|split]].
  - unfold SchemaExists. go_run.
    destruct (splitSchemaID (id (w_data w))) as [err|[dbName schema_]]; [reflexivity|].
    cbn. destruct (db_Query _ _) as [[err|rows] db']; reflexivity.
  - unfold SchemaExists. go_run.
    destruct (splitSchemaID (id (w_data w))) as [err|[dbName schema_]].
    + cbn. now rewrite app_nil_r.
    + cbn. destruct (db_Query _ _) as [[err|rows] db']; cbn; [reflexivity|].
      now rewrite <- app_assoc.
  - unfold ManagedAccountExists. go_run.
    destruct (db_Query _ _) as [[err|rows] db']; reflexivity.
  - unfold ManagedAccountExists. go_run.
    destruct (db_Query _ _) as [[err|rows] db']; cbn; [reflexivity|].
    now rewrite <- app_assoc.
Qed.


(** *** More on [UpdateSchema] *)

(** X7. An update of a resource whose ID does not parse returns the ID error
    having done nothing but switch the partial mode on: no statement is
    sent and no key is recorded. *)
Theorem UpdateSchema_bad_id (w : World DB) (err : error) :
  splitSchemaID (id (w_data w)) = inl err ->
  UpdateSchema (B := B) w
  = (Err err,
     {| w_data := schema.Partial (w_data w) true; w_db := w_db w;
        w_trace := w_trace w ++ [EvPartial true] |})
  /\ partial (schema.Partial (w_data w) true) = true
  /\ partialMap (schema.Partial (w_data w) true)
     = Some (match partialMap (w_data w) with Some m => m | None => ∅ end).
Proof.
  intros Hid. split; [|split; reflexivity].
  unfold UpdateSchema. go_run.
  change (id (schema.Partial (w_data w) true)) with (id (w_data w)).
  now rewrite Hid.
Qed.

(** X8. When the comment changed and its ALTER fails, [UpdateSchema] stops
    there: it returns the error wrapped with the ID, the ALTER is the only
    statement sent (managed access and retention are not attempted, changed
    or not), and the partial mode is on with no key added. *)
Theorem UpdateSchema_comment_failure (w : World DB) (dbName schema_ : string)
    (err : error) (db' : DB) :
  let d := w_data w in
  let q := ChangeComment (WithDB (Schema (B := B) schema_) dbName)
             (asString (snd (schema.GetChange schemaSchema d "comment"))) in
  splitSchemaID (id d) = inr (dbName, schema_) ->
  schema.HasChange schemaSchema d "comment" = true ->
  db_Exec (w_db w) q = (Some err, db') ->
  UpdateSchema (B := B) w
  = (Err (errors.Wrapf err ("error updating schema comment on " ++ id d)),
     {| w_data := schema.Partial d true; w_db := db';
        w_trace := w_trace w ++ [EvPartial true; EvExec q] |})
  /\ partial (schema.Partial d true) = true
  /\ partialMap (schema.Partial d true)
     = Some (match partialMap d with Some m => m | None => ∅ end).
Proof.
  intros d q Hid Hc Hexec. split; [|split; reflexivity].
  unfold UpdateSchema. go_run. fold d. changes_of d.
  rewrite Hid. cbn [w_data w_db w_trace]. changes_of d.
  rewrite Hc. cbn [w_data w_db w_trace]. changes_of d.
  fold q. rewrite Hexec. cbn [w_data w_db w_trace].
  now rewrite <- !app_assoc.
Qed.

(** X9. When the comment was altered and the ALTER for managed access then
    fails, [UpdateSchema] returns that error wrapped with the ID; the comment
    is recorded as partial progress and managed access is not; the retention
    is not attempted. *)
Theorem UpdateSchema_managed_failure (w : World DB) (dbName schema_ : string)
    (err : error) (db1 db2 : DB) :
  let d := w_data w in
  let builder := WithDB (Schema (B := B) schema_) dbName in
  let q1 := ChangeComment builder (asString (snd (schema.GetChange schemaSchema d "comment"))) in
  let q2 := if asBool (snd (schema.GetChange schemaSchema d "is_managed"))
            then Manage builder else Unmanage builder in
  let d' := schema.SetPartial (schema.Partial d true) "comment" in
  splitSchemaID (id d) = inr (dbName, schema_) ->
  schema.HasChange schemaSchema d "comment" = true ->
  schema.HasChange schemaSchema d "is_managed" = true ->
  db_Exec (w_db w) q1 = (None, db1) ->
  db_Exec db1 q2 = (Some err, db2) ->
  UpdateSchema (B := B) w
  = (Err (errors.Wrapf err ("error changing management state on " ++ id d)),
     {| w_data := d'; w_db := db2;
        w_trace := w_trace w ++ [EvPartial true; EvExec q1; EvSetPartial "comment"; EvExec q2] |})
  /\ partial d' = true
  /\ partialMap d'
     = Some ({["comment"]} ∪ match partialMap d with Some m => m | None => ∅ end).
Proof.
  intros d builder q1 q2 d' Hid Hc Hm H1' H2'. split; [|split; reflexivity].
  unfold UpdateSchema. go_run. fold d. changes_of d.
  rewrite Hid. cbn [w_data w_db w_trace]. changes_of d.
  rewrite Hc. cbn [w_data w_db w_trace]. changes_of d.
  fold builder. fold q1. rewrite H1'. cbn [w_data w_db w_trace]. changes_of d.
  rewrite Hm. cbn [w_data w_db w_trace]. changes_of d.
  fold q2. rewrite H2'. cbn [w_data w_db w_trace].
  now rewrite <- !app_assoc.
Qed.

(** Runs the next statement, if there is one, on a database that accepts
    every statement ([Hacc]). *)
Ltac accepted Hacc d :=
  cbn [w_data w_db w_trace]; changes_of d;
  try match goal with
      | |- context [db_Exec ?m ?q] =>
          let E := fresh "E" in
          pose proof (Hacc m q) as E;
          destruct (db_Exec m q) as [? ?]; cbn [fst] in E; subst
      end;
  cbn [w_data w_db w_trace]; changes_of d.

Lemma executed_app (tr1 tr2 : list Event) :
  executed (tr1 ++ tr2) = (executed tr1 ++ executed tr2)%list.
Proof. unfold executed. apply flat_map_app. Qed.

(** X10. Against a database that accepts every statement, [UpdateSchema]
    sends exactly one ALTER for each of comment, managed access and
    retention that changed, in this order, and none for one that did not:
    the statements it executes are [updateStatements]. *)
Theorem UpdateSchema_one_ALTER_per_change (w : World DB) (dbName schema_ : string) :
  (forall (m : DB) (q : string), fst (db_Exec m q) = None) ->
  splitSchemaID (id (w_data w)) = inr (dbName, schema_) ->
  executed (w_trace (snd (UpdateSchema (B := B) w)))
  = (executed (w_trace w)
     ++ updateStatements (w_data w) (WithDB (Schema (B := B) schema_) dbName))%list.
Proof.
  intros Hacc Hid. unfold UpdateSchema, updateStatements. go_run.
  set (d := w_data w) in *. changes_of d.
  rewrite Hid. cbn [w_data w_db w_trace]. changes_of d.
  destruct (schema.HasChange schemaSchema d "comment"); accepted Hacc d.
  all: destruct (schema.HasChange schemaSchema d "is_managed"); accepted Hacc d.
  all: destruct (schema.HasChange schemaSchema d "data_retention_days"); accepted Hacc d.
  all: rewrite ReadSchema_trace; cbn [w_data w_trace]; changes_of d; rewrite Hid;
    rewrite !executed_app; cbn [executed flat_map app];
    rewrite ?app_nil_r, <- ?app_assoc; reflexivity.
Qed.


(** The rules of [alike]. *)
Lemma alike_ret {A : Type} (a : A) : alike (DB := DB) (ret a).
Proof. intros w1 w2 Hw. now split. Qed.

Lemma alike_raise {A : Type} (e : error) : alike (DB := DB) (A := A) (raise e).
Proof. intros w1 w2 Hw. now split. Qed.

Lemma alike_bind {A C : Type} (c : M DB A) (k : A -> M DB C) :
  alike c -> (forall a, alike (k a)) -> alike (bind c k).
Proof.
  intros Hc Hk w1 w2 Hw. unfold bind. destruct (Hc w1 w2 Hw) as [Hr Hw'].
  destruct (c w1) as [[a1|e1] w1'], (c w2) as [[a2|e2] w2']; cbn [fst snd] in *;
    try discriminate Hr.
  - injection Hr as <-. now apply Hk.
  - injection Hr as <-. split; [reflexivity|exact Hw'].
Qed.

Lemma alike_check {A : Type} (r : error + A) : alike (DB := DB) (check r).
Proof. destruct r; [apply alike_raise|apply alike_ret]. Qed.

Lemma alike_emit (ev : Event) : alike (DB := DB) (emit ev).
Proof.
  intros w1 w2 [Hi [Hd [Ht Hk]]]. split; [reflexivity|].
  repeat split; cbn [emit snd w_data w_db w_trace]; try assumption. now rewrite Ht.
Qed.

Lemma alike_Id : alike (DB := DB) data.Id.
Proof. intros w1 w2 Hw. split; [|exact Hw]. cbn. f_equal. apply Hw. Qed.

Lemma alike_HasChange (k : string) :
  In k updatable -> alike (DB := DB) (data.HasChange schemaSchema k).
Proof.
  intros Hin w1 w2 Hw. split; [|exact Hw]. unfold data.HasChange. go_run. f_equal.
  unfold schema.HasChange. now rewrite (proj2 (proj2 (proj2 Hw)) k Hin).
Qed.

Lemma alike_GetChange (k : string) :
  In k updatable -> alike (DB := DB) (data.GetChange schemaSchema k).
Proof.
  intros Hin w1 w2 Hw. split; [|exact Hw]. unfold data.GetChange. go_run. f_equal.
  exact (proj2 (proj2 (proj2 Hw)) k Hin).
Qed.

Lemma alike_DBExec (q : string) : alike (DBExec (DB := DB) q).
Proof.
  intros w1 w2 [Hi [Hd [Ht Hk]]]. unfold DBExec. rewrite Hd.
  destruct (db_Exec (w_db w2) q) as [err db'].
  split; [reflexivity|]. repeat split; cbn [snd w_data w_db w_trace]; try assumption.
  now rewrite Ht.
Qed.

Lemma alike_QueryRow (q : string) : alike (db.QueryRow (DB := DB) q).
Proof.
  intros w1 w2 [Hi [Hd [Ht Hk]]]. unfold db.QueryRow. rewrite Hd.
  destruct (db_QueryRow (w_db w2) q) as [row db'].
  split; [reflexivity|]. repeat split; cbn [snd w_data w_db w_trace]; try assumption.
  now rewrite Ht.
Qed.

Lemma alike_Partial (on : bool) : alike (DB := DB) (data.Partial on).
Proof.
  intros w1 w2 [Hi [Hd [Ht Hk]]]. split; [reflexivity|].
  repeat split; cbn; try assumption. now rewrite Ht.
Qed.

Lemma alike_SetPartial (k : string) : alike (DB := DB) (data.SetPartial k).
Proof.
  intros w1 w2 [Hi [Hd [Ht Hk]]]. split; [reflexivity|].
  unfold data.SetPartial, schema.SetPartial. go_run.
  repeat split; cbn [snd w_data w_db w_trace].
  - now destruct (partial (w_data w1)), (partial (w_data w2)).
  - exact Hd.
  - now rewrite Ht.
  - intros k' Hin. specialize (Hk k' Hin).
    now destruct (partial (w_data w1)), (partial (w_data w2)).
Qed.

(** A write of a schema attribute succeeds on both sides and leaves the ID,
    the state and the plan alone. *)
Lemma alike_Set (k : string) (v : Value) (s : schema.Schema) :
  schemaSchema !! k = Some s -> hasType v (Type_ s) = true ->
  alike (DB := DB) (data.Set_ schemaSchema k v).
Proof.
  intros Hk Ht w1 w2 [Hi [Hd [Htr Hc]]]. unfold data.Set_. go_run.
  rewrite !(Set_ok schemaSchema _ k v s Hk Ht). cbn [fst snd w_data w_db w_trace].
  split; [reflexivity|]. repeat split; try assumption.
Qed.

Lemma alike_forRange {A : Type} (xs : list A) (body : A -> M DB unit) :
  (forall x, alike (body x)) -> alike (forRange xs body).
Proof.
  intros Hbody. induction xs as [|x rest IH]; cbn [forRange].
  - apply alike_ret.
  - apply alike_bind; [apply Hbody|intros _; exact IH].
Qed.

Ltac alike_step :=
  lazymatch goal with
  | |- alike (bind _ _) => apply alike_bind; [|intros ?]
  | |- alike (ret _) => apply alike_ret
  | |- alike (raise _) => apply alike_raise
  | |- alike (check _) => apply alike_check
  | |- alike data.Id => apply alike_Id
  | |- alike (data.HasChange _ _) => apply alike_HasChange; cbn; tauto
  | |- alike (data.GetChange _ _) => apply alike_GetChange; cbn; tauto
  | |- alike (data.Partial _) => apply alike_Partial
  | |- alike (data.SetPartial _) => apply alike_SetPartial
  | |- alike (data.Set_ _ _ _) => eapply alike_Set; reflexivity
  | |- alike (DBExec _) => apply alike_DBExec
  | |- alike (db.QueryRow _) => apply alike_QueryRow
  | |- alike (forRange _ _) => apply alike_forRange; intros ?
  | |- alike (match ?x with _ => _ end) => destruct x
  end.

Lemma ReadSchema_alike : alike (ReadSchema (DB := DB) (B := B)).
Proof. unfold ReadSchema. repeat alike_step. Qed.

Lemma UpdateSchema_alike : alike (UpdateSchema (DB := DB) (B := B)).
Proof. unfold UpdateSchema. repeat alike_step. apply ReadSchema_alike. Qed.

Lemma GetChange_withPlanned_ne (k k' : string) (v : Value) (d : ResourceData) :
  k <> k' ->
  schema.GetChange schemaSchema (withPlanned k v d) k' = schema.GetChange schemaSchema d k'.
Proof.
  intros Hne. unfold schema.GetChange, schema.get, withPlanned. cbn [state planned].
  now rewrite lookup_insert_ne.
Qed.

(** X11. What [UpdateSchema] returns, sends and does to the database is
    determined by the ID and by the old and new values of comment, managed
    access and retention: two runs on data that agree on these, from the same
    database, agree on all three. In particular a planned change of any
    other attribute (name, database, is_transient) makes no difference: no
    statement is ever sent for it. *)
Theorem UpdateSchema_sees_updatable_only (w1 w2 : World DB) :
  id (w_data w1) = id (w_data w2) ->
  w_db w1 = w_db w2 ->
  w_trace w1 = w_trace w2 ->
  (forall k : string,
      In k ["comment"; "is_managed"; "data_retention_days"] ->
      schema.GetChange schemaSchema (w_data w1) k = schema.GetChange schemaSchema (w_data w2) k) ->
  fst (UpdateSchema (B := B) w1) = fst (UpdateSchema (B := B) w2)
  /\ w_db (snd (UpdateSchema (B := B) w1)) = w_db (snd (UpdateSchema (B := B) w2))
  /\ w_trace (snd (UpdateSchema (B := B) w1)) = w_trace (snd (UpdateSchema (B := B) w2)).
Proof.
  intros Hi Hd Ht Hk.
  destruct (UpdateSchema_alike w1 w2) as [Hr [_ [Hd' [Ht' _]]]].
  { repeat split; assumption. }
  auto.
Qed.

(** X12. A planned change of an attribute other than comment, managed access
    and retention is invisible to [UpdateSchema]: with the planned value of
    such a key replaced by any value, the update returns the same result,
    sends the same statements and leaves the database in the same state. *)
Theorem UpdateSchema_ignores_other_attributes (w : World DB) (k : string) (v : Value) :
  k <> "comment" -> k <> "is_managed" -> k <> "data_retention_days" ->
  let w' := {| w_data := withPlanned k v (w_data w); w_db := w_db w; w_trace := w_trace w |} in
  fst (UpdateSchema (B := B) w') = fst (UpdateSchema (B := B) w)
  /\ w_db (snd (UpdateSchema (B := B) w')) = w_db (snd (UpdateSchema (B := B) w))
  /\ w_trace (snd (UpdateSchema (B := B) w')) = w_trace (snd (UpdateSchema (B := B) w)).
Proof.
  intros Hc Hm Hr w'.
  destruct (UpdateSchema_alike w' w) as [Hres [_ [Hd' [Ht' _]]]]; [|auto].
  repeat split; try reflexivity.
  intros k' Hin. cbn [w_data w']. apply GetChange_withPlanned_ne.
  cbn in Hin. intuition congruence.
Qed.


(** *** More on [CreateSchema] *)

(** X13. A pipe in the name or in the database breaks creation after the
    fact: the CREATE statement is executed, the ID [database|name] is
    stored, and then the read-back rejects that ID, so [CreateSchema]
    returns "ID ... is invalid" for a schema that now exists, without having
    queried it. *)
Theorem CreateSchema_pipe_in_name (w : World DB) (db' : DB) :
  let d := w_data w in
  let name_ := asString (schema.Get schemaSchema d "name") in
  let database := asString (schema.Get schemaSchema d "database") in
  let q := Create (createSchemaBuilder (B := B) d) in
  db_Exec (w_db w) q = (None, db') ->
  (strings.CountByte database "|" + strings.CountByte name_ "|" <> 0)%nat ->
  CreateSchema (B := B) w
  = (Err (fmt.Errorf ("ID " ++ (database ++ "|" ++ name_) ++ " is invalid")),
     {| w_data := schema.SetId d (database ++ "|" ++ name_); w_db := db';
        w_trace := w_trace w ++ [EvExec q] |}).
Proof.
  intros d name_ database q Hexec Hpipe.
  pose proof (CreateSchema_exec_ok w db' Hexec) as Hrun. fold d q database name_ in Hrun.
  rewrite Hrun. apply ReadSchema_bad_id. cbn [w_data schema.SetId id].
  apply splitSchemaID_inl. rewrite Split_pipe_length, !CountByte_app.
  cbn [strings.CountByte].
  replace (Ascii.eqb "|" "|") with true by reflexivity. lia.
Qed.

(** X14. When [CreateSchema] returns nil, neither the name nor the database
    holds a pipe, the stored ID decodes to exactly that database and name,
    and the effects were the CREATE statement followed by the one SHOW query
    for the schema just created. *)
Theorem CreateSchema_success (w w' : World DB) :
  let d := w_data w in
  let name_ := asString (schema.Get schemaSchema d "name") in
  let database := asString (schema.Get schemaSchema d "database") in
  CreateSchema (B := B) w = (Ok tt, w') ->
  strings.CountByte database "|" = 0%nat
  /\ strings.CountByte name_ "|" = 0%nat
  /\ splitSchemaID (id (w_data w')) = inr (database, name_)
  /\ w_trace w'
     = (w_trace w
        ++ [EvExec (Create (createSchemaBuilder (B := B) d));
            EvQueryRow (Show (WithDB (Schema (B := B) name_) database))])%list.
Proof.
  intros d name_ database Hok.
  destruct (db_Exec (w_db w) (Create (createSchemaBuilder (B := B) d))) as [[err|] db'] eqn:Hexec.
  { rewrite (CreateSchema_exec_error w err db' Hexec) in Hok. discriminate Hok. }
  pose proof (CreateSchema_exec_ok w db' Hexec) as Hrun. fold d database name_ in Hrun.
  rewrite Hrun in Hok.
  match type of Hok with
  | ReadSchema ?w0 = _ =>
      destruct (ReadSchema_cases w0)
        as [[err [_ Hr]]|[dbName [schema_ [row [db2 [Hid [Hq Hr]]]]]]]
  end.
  { rewrite Hr in Hok. discriminate Hok. }
  destruct Hr as [[err [_ Hr]]|[r [Hscan Hr]]].
  { rewrite Hok in Hr. discriminate Hr. }
  rewrite Hr in Hok. injection Hok as <-.
  cbn [w_data w_db w_trace schema.SetId id withWritten] in *.
  assert (Hlen : length (strings.Split (database ++ "|" ++ name_) "|") = 2%nat).
  { apply splitSchemaID_inr in Hid. now rewrite Hid. }
  destruct (encoded_two_components _ _ Hlen) as [Hd Hn].
  assert (Hdec : splitSchemaID (database ++ "|" ++ name_) = inr (database, name_)).
  { apply splitSchemaID_inr. rewrite Split_pipe_app by exact Hd.
    now rewrite Split_pipe_free by exact Hn. }
  rewrite Hdec in Hid. injection Hid as <- <-.
  repeat split; try assumption. now rewrite <- app_assoc.
Qed.




(** *** After the delete *)

Lemma DeleteSchema_ok_id (w w' : World DB) :
  DeleteSchema (B := B) w = (Ok tt, w') -> id (w_data w') = "".
Proof.
  unfold DeleteSchema. go_run.
  destruct (splitSchemaID (id (w_data w))) as [err|[dbName schema_]]; [discriminate|].
  cbn. destruct (db_Exec _ _) as [[err|] db']; cbn; [discriminate|].
  intros E. injection E as <-. reflexivity.
Qed.

(** X16. Once [DeleteSchema] has succeeded the ID is empty, and on the empty
    ID every lifecycle function of the schema fails with "ID  is invalid"
    before it contacts the database: [ReadSchema], [DeleteSchema] and
    [SchemaExists] (which reports the error, not [false]) leave everything
    as it is, and [UpdateSchema] only switches the partial mode on. *)
Theorem DeleteSchema_then_id_invalid (w w' : World DB) :
  DeleteSchema (B := B) w = (Ok tt, w') ->
  let e := fmt.Errorf ("ID " ++ "" ++ " is invalid") in
  id (w_data w') = ""
  /\ ReadSchema (B := B) w' = (Err e, w')
  /\ DeleteSchema (B := B) w' = (Err e, w')
  /\ SchemaExists (B := B) w' = (Err e, w')
  /\ UpdateSchema (B := B) w'
     = (Err e, {| w_data := schema.Partial (w_data w') true; w_db := w_db w';
                  w_trace := w_trace w' ++ [EvPartial true] |}).
Proof.
  intros Hdel e. pose proof (DeleteSchema_ok_id w w' Hdel) as Hid.
  assert (Hsplit : splitSchemaID (id (w_data w')) = inl e) by (now rewrite Hid).
  split; [exact Hid|]. split; [now apply ReadSchema_bad_id|].
  split; [unfold DeleteSchema; go_run; now rewrite Hsplit|].
  split; [unfold SchemaExists; go_run; now rewrite Hsplit|].
  unfold UpdateSchema. go_run.
  change (id (schema.Partial (w_data w') true)) with (id (w_data w')).
  now rewrite Hsplit.
Qed.

(** *** What an ID decodes to *)

(** X17. The two names [splitSchemaID] returns never hold a pipe, and the ID
    they come from holds exactly one: no ID decodes to a database or schema
    name with a pipe in it. *)
Theorem splitSchemaID_names_without_pipe (v database name_ : string) :
  splitSchemaID v = inr (database, name_) ->
  strings.CountByte database "|" = 0%nat
  /\ strings.CountByte name_ "|" = 0%nat
  /\ strings.CountByte v "|" = 1%nat.
Proof.
  intros Hv. apply splitSchemaID_inr in Hv.
  pose proof (Split_pipe_length v) as Hlen. rewrite Hv in Hlen. cbn [length] in Hlen.
  pose proof (Join_Split_pipe v) as Hjoin. rewrite Hv in Hjoin.
  cbn [strings.Join] in Hjoin.
  assert (Hcount : strings.CountByte (database ++ "|" ++ name_) "|" = 1%nat)
    by (rewrite Hjoin; lia).
  rewrite !CountByte_app in Hcount. cbn [strings.CountByte] in Hcount.
  replace (Ascii.eqb "|" "|") with true in Hcount by reflexivity. lia.
Qed.


(** *** Invariants of an update *)

(** Splits on the next statement of an update: failed or accepted. *)
Ltac exec_cases d :=
  cbn [w_data w_db w_trace]; changes_of d;
  try match goal with
      | |- context [db_Exec ?m ?q] =>
          destruct (db_Exec m q) as [[?|] ?]
      end;
  cbn [w_data w_db w_trace]; changes_of d.

(** X18. An update that returns nil ends with the partial mode off and no
    partial key left, so that the framework stores the whole new state; the
    ID, the prior state and the planned values are those the update was
    called with. *)
Theorem UpdateSchema_success_is_not_partial (w w' : World DB) :
  UpdateSchema (B := B) w = (Ok tt, w') ->
  partial (w_data w') = false
  /\ partialMap (w_data w') = None
  /\ id (w_data w') = id (w_data w)
  /\ state (w_data w') = state (w_data w)
  /\ planned (w_data w') = planned (w_data w).
Proof.
  unfold UpdateSchema. go_run. set (d := w_data w) in *. changes_of d.
  destruct (splitSchemaID (id d)) as [err|[dbName schema_]];
    cbn [w_data w_db w_trace]; changes_of d; [discriminate|].
  destruct (schema.HasChange schemaSchema d "comment"); exec_cases d; try discriminate.
  all: destruct (schema.HasChange schemaSchema d "is_managed"); exec_cases d; try discriminate.
  all: destruct (schema.HasChange schemaSchema d "data_retention_days"); exec_cases d;
    try discriminate.
  all: intros Hread;
    match type of Hread with
    | ReadSchema ?w0 = _ =>
        destruct (ReadSchema_frame w0) as [Hi [Hs [Hp [Hpa [Hpm _]]]]];
        rewrite Hread in Hi, Hs, Hp, Hpa, Hpm;
        cbn [snd w_data] in Hi, Hs, Hp, Hpa, Hpm;
        rewrite Hi, Hs, Hp, Hpa, Hpm
    end;
    repeat split; try reflexivity;
    cbn [schema.Partial schema.SetPartial partial id state planned];
    reflexivity.
Qed.

(** X19. What [ReadSchema] returns, sends and does to the database is
    determined by the ID (and the database): the attribute values in the bag
    play no role, a read after the name or the database attribute was
    changed still looks up the schema the ID names. *)
Theorem ReadSchema_sees_the_id_only (w1 w2 : World DB) :
  id (w_data w1) = id (w_data w2) ->
  w_db w1 = w_db w2 ->
  w_trace w1 = w_trace w2 ->
  fst (ReadSchema (B := B) w1) = fst (ReadSchema (B := B) w2)
  /\ w_db (snd (ReadSchema (B := B) w1)) = w_db (snd (ReadSchema (B := B) w2))
  /\ w_trace (snd (ReadSchema (B := B) w1)) = w_trace (snd (ReadSchema (B := B) w2))
  /\ forall k : string,
      is_Some (schemaSchema !! k) ->
      fst (ReadSchema (B := B) w1) = Ok tt ->
      schema.Get schemaSchema (w_data (snd (ReadSchema (B := B) w1))) k
      = schema.Get schemaSchema (w_data (snd (ReadSchema (B := B) w2))) k.
Proof.
  intros Hid Hdb Htr.
  destruct (ReadSchema_depends_on_id w1 w2 Hid Hdb Htr) as [Hr [Hd Ht]].
  split; [exact Hr|]. split; [exact Hd|]. split; [exact Ht|].
  intros k Hk Hok.
  destruct (ReadSchema_cases w1) as [[err [_ Hr1]]|[dbName [schema_ [row [db' [Hid1 [Hq1 Hr1]]]]]]].
  { rewrite Hr1 in Hok. discriminate Hok. }
  destruct Hr1 as [[err [_ Hr1]]|[r [Hscan Hr1]]].
  { rewrite Hok in Hr1. discriminate Hr1. }
  pose proof Hid1 as Hid2. rewrite Hid in Hid2.
  pose proof Hq1 as Hq2. rewrite Hdb in Hq2.
  rewrite Hr1, (ReadSchema_ok w2 _ _ _ _ _ Hid2 Hq2 Hscan). cbn [snd w_data].
  destruct (writeSchemaRow_columns r (written (w_data w1))) as [Hn1 [Hd1 [Hc1 Hr1']]].
  destruct (writeSchemaRow_columns r (written (w_data w2))) as [Hn2 [Hd2 [Hc2 Hr2']]].
  destruct (writeSchemaRow_options r (written (w_data w1))) as [Ht1 Hm1].
  destruct (writeSchemaRow_options r (written (w_data w2))) as [Ht2 Hm2].
  unfold schema.Get, merged, schema.get. cbn [withWritten written planned].
  destruct Hk as [s Hk]. rewrite Hk.
  destruct (decide (k = "name")) as [->|?];
    [now rewrite (lookup_union_Some_l _ _ _ _ Hn1), (lookup_union_Some_l _ _ _ _ Hn2)|].
  destruct (decide (k = "database")) as [->|?];
    [now rewrite (lookup_union_Some_l _ _ _ _ Hd1), (lookup_union_Some_l _ _ _ _ Hd2)|].
  destruct (decide (k = "comment")) as [->|?];
    [now rewrite (lookup_union_Some_l _ _ _ _ Hc1), (lookup_union_Some_l _ _ _ _ Hc2)|].
  destruct (decide (k = "data_retention_days")) as [->|?];
    [now rewrite (lookup_union_Some_l _ _ _ _ Hr1'), (lookup_union_Some_l _ _ _ _ Hr2')|].
  destruct (decide (k = "is_transient")) as [->|?];
    [now rewrite (lookup_union_Some_l _ _ _ _ Ht1), (lookup_union_Some_l _ _ _ _ Ht2)|].
  destruct (decide (k = "is_managed")) as [->|?];
    [now rewrite (lookup_union_Some_l _ _ _ _ Hm1), (lookup_union_Some_l _ _ _ _ Hm2)|].
  exfalso. revert Hk. unfold schemaSchema. cbn [list_to_map foldr fst snd].
  now rewrite !lookup_insert_ne, lookup_empty by congruence.
Qed.


(** X20. Reads are read-only: whatever they return, [ReadSchema] sends the
    one SHOW query for the schema the ID names (nothing at all when the ID
    does not parse) and [ReadManagedAccount] the one SHOW query for the
    account the ID names; neither executes a statement, sleeps, logs or
    touches the partial mode. *)
Theorem Read_effects (w : World DB) :
  w_trace (snd (ReadSchema (B := B) w))
  = (w_trace w
     ++ match splitSchemaID (id (w_data w)) with
        | inl _ => []
        | inr (dbName, schema_) =>
            [EvQueryRow (Show (WithDB (Schema (B := B) schema_) dbName))]
        end)%list
  /\ w_trace (snd (ReadManagedAccount (G := G) w))
     = (w_trace w ++ [EvQueryRow (ShowStmt (ManagedAccount (G := G) (id (w_data w))))])%list.
Proof. split; [apply ReadSchema_trace|apply ReadManagedAccount_trace]. Qed.


End Properties.

(** ** Concrete runs against the scripted database *)

Import sqlmock.

Example Split_ab : strings.Split "a|b" "|" = ["a"; "b"].
Proof. reflexivity. Qed.

Example Split_options : strings.Split "TRANSIENT, MANAGED" ", " = ["TRANSIENT"; "MANAGED"].
Proof. reflexivity. Qed.

Example Split_empty : strings.Split "" ", " = [""].
Proof. reflexivity. Qed.

Example Split_separator_bytes : strings.Split "a, , b," ", " = ["a"; ""; "b,"].
Proof. reflexivity. Qed.

(** C1. What [UpdateSchema] does when comment, managed access and retention
    all change and every statement succeeds: one ALTER per attribute, the
    framework told of the partial progress after the comment and after the
    managed-access statement, but not after the retention statement; the
    partial mode is switched off before that statement is executed. When the
    retention statement is refused, the error comes back with the partial
    mode off and no key recorded. *)
Theorem UpdateSchema_retention_without_SetPartial :
  UpdateSchema (B := SchemaStmt) updateAll
  = (Ok tt,
     {| w_data :=
          withWritten (schema.Partial (schema.SetPartial (schema.SetPartial
                         (schema.Partial (w_data updateAll) true) "comment") "is_managed") false)
            (writeSchemaRow
               {| createdOn := nullString "2019-05-19 16:55:36.530 -0700";
                  name := nullString "S"; isDefault := nullString "N";
                  isCurrent := nullString "Y"; databaseName := nullString "D";
                  owner := nullString "admin"; comment := nullString "new";
                  options := nullString "MANAGED";
                  retentionTime := {| sql.Int64 := 5; sql.Valid64 := true |} |} ∅);
        w_db := [];
        w_trace :=
          [EvPartial true;
           EvExec "ALTER SCHEMA D.S SET COMMENT = 'new'"; EvSetPartial "comment";
           EvExec "ALTER SCHEMA D.S ENABLE MANAGED ACCESS"; EvSetPartial "is_managed";
           EvPartial false;
           EvExec "ALTER SCHEMA D.S SET DATA_RETENTION_TIME_IN_DAYS = 5";
           EvQueryRow "SHOW SCHEMAS LIKE 'S' IN DATABASE D"] |})
  /\ UpdateSchema (B := SchemaStmt) updateRetentionRefused
     = (Err (errors.Wrapf (driverError "invalid value")
               "error updating data retention days on D|S"),
        {| w_data := schema.Partial (schema.Partial (w_data updateRetentionRefused) true) false;
           w_db := [];
           w_trace :=
             [EvPartial true; EvPartial false;
              EvExec "ALTER SCHEMA D.S SET DATA_RETENTION_TIME_IN_DAYS = 5"] |})
  /\ partial (w_data (snd (UpdateSchema (B := SchemaStmt) updateRetentionRefused))) = false
  /\ partialMap (w_data (snd (UpdateSchema (B := SchemaStmt) updateRetentionRefused))) = None.
Proof. repeat split; vm_compute; reflexivity. Qed.

(** An update of the retention alone that the server accepts: the partial
    mode is switched on and off again before the one ALTER is sent. *)
Example UpdateSchema_retention_only :
  fst (UpdateSchema (B := SchemaStmt) updateRetention) = Ok tt
  /\ w_trace (snd (UpdateSchema (B := SchemaStmt) updateRetention))
     = [EvPartial true; EvPartial false;
        EvExec "ALTER SCHEMA D.S SET DATA_RETENTION_TIME_IN_DAYS = 5";
        EvQueryRow "SHOW SCHEMAS LIKE 'S' IN DATABASE D"]
  /\ partialMap (w_data (snd (UpdateSchema (B := SchemaStmt) updateRetention))) = None.
Proof. repeat split; vm_compute; reflexivity. Qed.

(** The drop of an existing schema that the server accepts clears the ID. *)
Lemma DeleteSchema_clears_id_on_success_witness :
  DeleteSchema (B := SchemaStmt) (world existing [ExpectExec None])
  = (Ok tt,
     {| w_data := schema.SetId existing ""; w_db := [];
        w_trace := [] ++ [EvExec (snowflake.Drop
                                    (snowflake.WithDB (snowflake.Schema (B := SchemaStmt) "S") "D"))] |})
  /\ id (schema.SetId existing "") = "".
Proof.
  apply (proj2 (proj2 (DeleteSchema_clears_id_on_success (B := SchemaStmt)
                         (world existing [ExpectExec None]))) "D" "S" []);
    reflexivity.
Defined.


(** The regression of the spec: a read that reports MANAGED sets
    [is_managed]; the next read, with an empty options string, takes it
    back. *)
Lemma ReadSchema_rederives_options_witness :
  schema.Get schemaSchema (w_data (snd (ReadSchema (B := SchemaStmt) readTwice))) "is_managed"
  = VBool true
  /\ exists (dbName schema_ : string) (r : SchemaRow),
      splitSchemaID (id (w_data (snd (ReadSchema (B := SchemaStmt) readTwice))))
      = inr (dbName, schema_)
      /\ Scan (fst (db_QueryRow (w_db (snd (ReadSchema (B := SchemaStmt) readTwice)))
                      (snowflake.Show (snowflake.WithDB
                                         (snowflake.Schema (B := SchemaStmt) schema_) dbName))))
         = inr r
      /\ (let opts := strings.Split (sql.String_ (options r)) ", " in
          schema.Get schemaSchema
            (w_data (snd (ReadSchema (B := SchemaStmt)
                            (snd (ReadSchema (B := SchemaStmt) readTwice))))) "is_transient"
          = VBool (bool_decide ("TRANSIENT" ∈ opts))
          /\ schema.Get schemaSchema
               (w_data (snd (ReadSchema (B := SchemaStmt)
                               (snd (ReadSchema (B := SchemaStmt) readTwice))))) "is_managed"
             = VBool (bool_decide ("MANAGED" ∈ opts)))
      /\ (sql.String_ (options r) = "" ->
          schema.Get schemaSchema
            (w_data (snd (ReadSchema (B := SchemaStmt)
                            (snd (ReadSchema (B := SchemaStmt) readTwice))))) "is_transient"
          = VBool false
          /\ schema.Get schemaSchema
               (w_data (snd (ReadSchema (B := SchemaStmt)
                               (snd (ReadSchema (B := SchemaStmt) readTwice))))) "is_managed"
             = VBool false).
Proof.
  split; [vm_compute; reflexivity|].
  apply (ReadSchema_rederives_options (B := SchemaStmt)
           (snd (ReadSchema (B := SchemaStmt) readTwice))
           (snd (ReadSchema (B := SchemaStmt) (snd (ReadSchema (B := SchemaStmt) readTwice))))).
  vm_compute. reflexivity.
Defined.

Example ReadSchema_managed_then_empty :
  schema.Get schemaSchema
    (w_data (snd (ReadSchema (B := SchemaStmt)
                    (snd (ReadSchema (B := SchemaStmt) readTwice))))) "is_managed"
  = VBool false.
Proof. vm_compute. reflexivity. Qed.

(** A SHOW that returns no row: the read returns [sql.ErrNoRows] itself. *)
Lemma Read_returns_scan_error_as_is_witness :
  ReadSchema (B := SchemaStmt) (world existing [ExpectQueryRow (inr None)])
  = (Err ErrNoRows,
     {| w_data := existing; w_db := [];
        w_trace := [] ++ [EvQueryRow (snowflake.Show
                                        (snowflake.WithDB (snowflake.Schema (B := SchemaStmt) "S") "D"))] |}).
Proof.
  refine (proj1 (proj2 (proj1 (Read_returns_scan_error_as_is (B := SchemaStmt) (G := string)
                                 (world existing [ExpectQueryRow (inr None)]))
                          "D" "S" (inr None) [] _ _)) _);
    reflexivity.
Defined.


Example CreateSchema_transient_end_to_end :
  let w' := snd (CreateSchema (B := SchemaStmt) createTransient) in
  fst (CreateSchema (B := SchemaStmt) createTransient) = Ok tt
  /\ w_trace w' = [EvExec "CREATE TRANSIENT SCHEMA D.S DATA_RETENTION_TIME_IN_DAYS = 5";
                   EvQueryRow "SHOW SCHEMAS LIKE 'S' IN DATABASE D"]
  /\ id (w_data w') = "D|S"
  /\ schema.Get schemaSchema (w_data w') "database" = VString "D"
  /\ schema.Get schemaSchema (w_data w') "name" = VString "S"
  /\ schema.Get schemaSchema (w_data w') "is_transient" = VBool true.
Proof. repeat split; vm_compute; reflexivity. Qed.


Example CreateSchema_retention_zero_statement :
  sb_days (createSchemaBuilder (B := SchemaStmt) createRetentionZero) = None
  /\ w_trace (snd (CreateSchema (B := SchemaStmt) (world createRetentionZero [ExpectExec None])))
     = [EvExec "CREATE SCHEMA D.S"; EvQueryRow "SHOW SCHEMAS LIKE 'S' IN DATABASE D"].
Proof. split; vm_compute; reflexivity. Qed.

(** The creation of a managed account on the scripted database: the CREATE
    statement, the log line, the sleep and the one SHOW query. *)
Lemma CreateManagedAccount_sleeps_once_then_reads_witness :
  w_trace (snd (CreateManagedAccount (G := string) createAccount))
  = [EvExec "CREATE MANAGED ACCOUNT acct admin_name='admin' admin_password='secret' type='READER'";
     EvLog "[INFO] sleeping to give the locator a chance to be generated";
     EvSleep 10000000000;
     EvQueryRow "SHOW MANAGED ACCOUNTS LIKE 'acct'"].
Proof.
  refine (proj1 (proj2 (proj2 (proj2 (CreateManagedAccount_sleeps_once_then_reads (G := string)
                                        createAccount))))
            [ExpectQueryRow
               (inr (Some (ManagedAccountRowOf
                  {| ma_name := nullString "acct"; ma_cloud := nullString "aws";
                     ma_region := nullString "us-west-2"; ma_locator := nullString "XY12345";
                     ma_createdOn := nullString "2019-05-19 16:55:36.530 -0700";
                     ma_url := nullString "https://xy12345.snowflakecomputing.com";
                     ma_isReader := true; ma_comment := null |})))] _).
  vm_compute. reflexivity.
Defined.

(** ** Further concrete runs *)

(** Discharges the hypotheses of [H] one by one with [tac]. *)
Ltac feed H tac :=
  repeat match type of H with
         | ?P -> _ =>
             let HP := fresh "HP" in
             assert (HP : P) by tac; specialize (H HP); clear HP
         end.

Ltac by_run :=
  first [ vm_compute; reflexivity | vm_compute; discriminate | vm_compute; lia
        | intros; reflexivity ].

Lemma ReadSchema_idempotent_witness :
  w_data (snd (ReadSchema (B := SchemaStmt) (snd (ReadSchema (B := SchemaStmt) readSame))))
  = w_data (snd (ReadSchema (B := SchemaStmt) readSame)).
Proof.
  pose proof (ReadSchema_idempotent (B := SchemaStmt) readSame "D" "S" managedRow) as Hw.
  cbv zeta in Hw. feed Hw by_run. exact (proj2 (proj2 Hw)).
Defined.

Lemma ReadManagedAccount_not_reader_witness :
  fst (ReadManagedAccount (G := string) readNotReader)
  = Err (fmt.Errorf "Unable to determine the account type")
  /\ schema.Get managedAccountSchema
       (w_data (snd (ReadManagedAccount (G := string) readNotReader))) "locator"
     = VString "XY12345".
Proof.
  pose proof (ReadManagedAccount_not_reader (G := string) readNotReader notReaderRow) as Hw.
  cbv zeta in Hw. feed Hw by_run.
  split; [exact (proj1 Hw)|exact (proj1 (proj2 (proj2 (proj2 (proj2 Hw)))))].
Defined.

Lemma UpdateSchema_bad_id_witness :
  fst (UpdateSchema (B := SchemaStmt) (world (resourceData "DS" [] []) []))
  = Err (fmt.Errorf "ID DS is invalid").
Proof.
  pose proof (UpdateSchema_bad_id (B := SchemaStmt) (world (resourceData "DS" [] []) [])
                (fmt.Errorf "ID DS is invalid")) as Hw.
  feed Hw by_run. now rewrite (proj1 Hw).
Defined.

Lemma UpdateSchema_comment_failure_witness :
  w_trace (snd (UpdateSchema (B := SchemaStmt) updateCommentRefused))
  = [EvPartial true; EvExec "ALTER SCHEMA D.S SET COMMENT = 'new'"].
Proof.
  pose proof (UpdateSchema_comment_failure (B := SchemaStmt) updateCommentRefused "D" "S"
                (driverError "insufficient privileges") []) as Hw.
  cbv zeta in Hw. feed Hw by_run. rewrite (proj1 Hw). vm_compute. reflexivity.
Defined.

Lemma UpdateSchema_managed_failure_witness :
  partialMap (w_data (snd (UpdateSchema (B := SchemaStmt) updateManagedRefused)))
  = Some {["comment"]}.
Proof.
  pose proof (UpdateSchema_managed_failure (B := SchemaStmt) updateManagedRefused "D" "S"
                (driverError "insufficient privileges")
                [ExpectExec (Some (driverError "insufficient privileges"))] []) as Hw.
  cbv zeta in Hw. feed Hw by_run. rewrite (proj1 Hw). vm_compute. reflexivity.
Defined.

Lemma UpdateSchema_one_ALTER_per_change_witness :
  executed (w_trace (snd (UpdateSchema (B := SchemaStmt) updateAccepted)))
  = ["ALTER SCHEMA D.S SET COMMENT = 'new'";
     "ALTER SCHEMA D.S ENABLE MANAGED ACCESS";
     "ALTER SCHEMA D.S SET DATA_RETENTION_TIME_IN_DAYS = 5"].
Proof.
  pose proof (UpdateSchema_one_ALTER_per_change (B := SchemaStmt) updateAccepted "D" "S") as Hw.
  feed Hw by_run. rewrite Hw. vm_compute. reflexivity.
Defined.

Lemma UpdateSchema_sees_updatable_only_witness :
  w_trace (snd (UpdateSchema (B := SchemaStmt) updateAll))
  = w_trace (snd (UpdateSchema (B := SchemaStmt)
                    (world (withPlanned "is_transient" (VBool true) (w_data updateAll))
                       (w_db updateAll)))).
Proof.
  pose proof (UpdateSchema_sees_updatable_only (B := SchemaStmt) updateAll
                (world (withPlanned "is_transient" (VBool true) (w_data updateAll))
                   (w_db updateAll))) as Hw.
  feed Hw ltac:(first [ by_run
                      | intros k Hin; cbn in Hin;
                        destruct Hin as [<-|[<-|[<-|[]]]]; vm_compute; reflexivity ]).
  exact (proj2 (proj2 Hw)).
Defined.

Lemma UpdateSchema_ignores_other_attributes_witness :
  fst (UpdateSchema (B := SchemaStmt)
         {| w_data := withPlanned "name" (VString "T") (w_data updateAll);
            w_db := w_db updateAll; w_trace := w_trace updateAll |})
  = fst (UpdateSchema (B := SchemaStmt) updateAll).
Proof.
  pose proof (UpdateSchema_ignores_other_attributes (B := SchemaStmt) updateAll
                "name" (VString "T")) as Hw.
  feed Hw ltac:(discriminate). cbv zeta in Hw. exact (proj1 Hw).
Defined.

Lemma CreateSchema_pipe_in_name_witness :
  fst (CreateSchema (B := SchemaStmt) createPiped) = Err (fmt.Errorf "ID D|a|b is invalid")
  /\ w_trace (snd (CreateSchema (B := SchemaStmt) createPiped)) = [EvExec "CREATE SCHEMA D.a|b"].
Proof.
  pose proof (CreateSchema_pipe_in_name (B := SchemaStmt) createPiped []) as Hw.
  cbv zeta in Hw. feed Hw by_run. rewrite Hw. split; vm_compute; reflexivity.
Defined.

Lemma CreateSchema_success_witness :
  splitSchemaID (id (w_data (snd (CreateSchema (B := SchemaStmt) createTransient))))
  = inr ("D", "S").
Proof.
  pose proof (CreateSchema_success (B := SchemaStmt) createTransient
                (snd (CreateSchema (B := SchemaStmt) createTransient))) as Hw.
  cbv zeta in Hw. feed Hw by_run. exact (proj1 (proj2 (proj2 Hw))).
Defined.


Lemma DeleteSchema_then_id_invalid_witness :
  fst (SchemaExists (B := SchemaStmt)
         (snd (DeleteSchema (B := SchemaStmt) (world existing [ExpectExec None]))))
  = Err (fmt.Errorf "ID  is invalid").
Proof.
  pose proof (DeleteSchema_then_id_invalid (B := SchemaStmt)
                (world existing [ExpectExec None])
                (snd (DeleteSchema (B := SchemaStmt) (world existing [ExpectExec None])))) as Hw.
  feed Hw by_run. cbv zeta in Hw.
  now rewrite (proj1 (proj2 (proj2 (proj2 Hw)))).
Defined.

Lemma splitSchemaID_names_without_pipe_witness :
  strings.CountByte "D" "|" = 0%nat
  /\ strings.CountByte "S" "|" = 0%nat
  /\ strings.CountByte "D|S" "|" = 1%nat.
Proof.
  apply (splitSchemaID_names_without_pipe "D|S" "D" "S"). reflexivity.
Defined.

Lemma UpdateSchema_success_is_not_partial_witness :
  partial (w_data (snd (UpdateSchema (B := SchemaStmt) updateAll))) = false
  /\ partialMap (w_data (snd (UpdateSchema (B := SchemaStmt) updateAll))) = None.
Proof.
  pose proof (UpdateSchema_success_is_not_partial (B := SchemaStmt) updateAll
                (snd (UpdateSchema (B := SchemaStmt) updateAll))) as Hw.
  feed Hw by_run. split; [exact (proj1 Hw)|exact (proj1 (proj2 Hw))].
Defined.

Lemma ReadSchema_sees_the_id_only_witness :
  fst (ReadSchema (B := SchemaStmt)
         (world existing [ExpectQueryRow (inr (Some (SchemaRowOf managedRow)))]))
  = fst (ReadSchema (B := SchemaStmt)
           (world (resourceData "D|S" [] [("name", VString "T"); ("database", VString "E")])
              [ExpectQueryRow (inr (Some (SchemaRowOf managedRow)))])).
Proof.
  pose proof (ReadSchema_sees_the_id_only (B := SchemaStmt)
                (world existing [ExpectQueryRow (inr (Some (SchemaRowOf managedRow)))])
                (world (resourceData "D|S" [] [("name", VString "T"); ("database", VString "E")])
                   [ExpectQueryRow (inr (Some (SchemaRowOf managedRow)))])) as Hw.
  feed Hw by_run. exact (proj1 Hw).
Defined.
